(** * Financial-Twin: the browser client [twin.js]

    A shallow embedding of [src/twin.js] and the properties of its
    request/response pipeline: the payload built from the form, the
    single exchange with the projection service, the rendering of the
    summary figures, the risk and insight lists, and the chart.

    JavaScript numbers are IEEE 754 binary64 values: they are modelled by
    Rocq's primitive [float], whose operations are the same. The page is
    a store of elements addressed by their [id]; the script's effects
    (DOM writes, the module-level [projectionChart], the Chart.js
    instances, calls of [fetch], [alert] and [console.error]) are threaded
    through a state-and-exception monad. The one suspension of
    [runFullSimulation], at [await fetch(...)], splits it in what runs
    before the request is sent and what runs once the exchange has
    settled; how it settles is a parameter of the run. *)

From Stdlib Require Import ZArith List String Ascii Bool Lia Floats.
Import ListNotations.

Set Warnings "-inexact-float,-register-all".
Local Open Scope string_scope.

(** ** Values decoded from JSON *)

(** A property of a decoded response object: missing ([undefined] when
    read), [null], or a value of the type the service documents. *)
Inductive field (A : Type) : Type :=
| Absent
| Null
| Present (a : A).

Arguments Absent {A}.
Arguments Null {A}.
Arguments Present {A} a.

(** The values the script puts in its request object. *)
Inductive JsValue :=
| JsNumber (x : float)
| JsString (s : string).

(** An object literal: its properties in insertion order. *)
Definition JsObject := list (string * JsValue).

Fixpoint property (key : string) (o : JsObject) : option JsValue :=
  match o with
  | [] => None
  | (k, v) :: o' => if String.eqb k key then Some v else property key o'
  end.

Definition keys (o : JsObject) : list string := map fst o.

(** One projection run of the response. *)
Record Run := {
  final_net_worth : field float;
  history : field (list float);
  risks : field (list string);
  insights : field (list string);
  goal_1_month : field float
}.

(** The decoded response body, as [updateUI] receives it. *)
Record Data := {
  base : field Run;
  best : field Run;
  worst : field Run;
  scenario : field Run
}.

(** A run as the service documents it, with every property. *)
Record Projection := {
  net_worth : float;
  series : list float;
  risk_notes : list string;
  insight_notes : list string
}.

(** A response as the service documents it: the four runs; the goal
    month of the base and of the scenario run is a number or [null]. *)
Record ProjectionResult := {
  base_run : Projection;
  base_goal : option float;
  best_run : Projection;
  worst_run : Projection;
  scenario_run : Projection;
  scenario_goal : option float
}.

Definition decoded_goal (goal : option float) : field float :=
  match goal with
  | Some month => Present month
  | None => Null
  end.

Definition decoded_run (p : Projection) (goal : field float) : Run :=
  {| final_net_worth := Present (net_worth p);
     history := Present (series p);
     risks := Present (risk_notes p);
     insights := Present (insight_notes p);
     goal_1_month := goal |}.

(** The decoded body of a response that carries [r]. *)
Definition decoded (r : ProjectionResult) : Data :=
  {| base := Present (decoded_run (base_run r) (decoded_goal (base_goal r)));
     best := Present (decoded_run (best_run r) Absent);
     worst := Present (decoded_run (worst_run r) Absent);
     scenario :=
       Present (decoded_run (scenario_run r) (decoded_goal (scenario_goal r))) |}.

(** ** Errors and the outcome of the exchange *)

Inductive JsError :=
| TypeError (message : string)
| SyntaxError (message : string)
| Error (message : string).

(** What [await response.json()] produces. *)
Inductive Body :=
| Unparsable (reason : JsError)
| Parsed (data : Data).

(** What [await fetch(...)] produces: the promise rejects (a network-level
    failure) or resolves to a response with a status and a body. *)
Inductive FetchOutcome :=
| Rejected (reason : JsError)
| Response (status : Z) (body : Body).

(** [response.ok]: the status is in the range 200-299. *)
Definition ok (status : Z) : bool := ((200 <=? status) && (status <=? 299))%Z.

(** ** The page *)

(** An element with the properties the script reads or writes.
    [innerHTML] and [textContent] hold what was last assigned through
    that property; assigning either replaces the element's children. *)
Inductive Element := mkElement {
  tagName : string;
  value : string;
  disabled : bool;
  innerHTML : string;
  textContent : string;
  className : string;
  style_color : string;
  childNodes : list Element
}.

Definition createElement (tag : string) : Element :=
  mkElement tag "" false "" "" "" "" [].

Definition with_disabled (b : bool) (e : Element) : Element :=
  mkElement (tagName e) (value e) b (innerHTML e) (textContent e)
            (className e) (style_color e) (childNodes e).

Definition with_innerHTML (s : string) (e : Element) : Element :=
  mkElement (tagName e) (value e) (disabled e) s (textContent e)
            (className e) (style_color e) [].

Definition with_textContent (s : string) (e : Element) : Element :=
  mkElement (tagName e) (value e) (disabled e) (innerHTML e) s
            (className e) (style_color e) [].

Definition with_className (s : string) (e : Element) : Element :=
  mkElement (tagName e) (value e) (disabled e) (innerHTML e) (textContent e)
            s (style_color e) (childNodes e).

Definition with_style_color (s : string) (e : Element) : Element :=
  mkElement (tagName e) (value e) (disabled e) (innerHTML e) (textContent e)
            (className e) s (childNodes e).

Definition with_child (c : Element) (e : Element) : Element :=
  mkElement (tagName e) (value e) (disabled e) (innerHTML e) (textContent e)
            (className e) (style_color e) (childNodes e ++ [c]).

(** The document binds every id the script asks for (the form, the
    output elements and the canvas of the page), so [getElementById]
    never yields [null]. *)
Definition Document := string -> Element.

Definition update (doc : Document) (id : string) (e : Element) : Document :=
  fun id' => if String.eqb id id' then e else doc id'.

(** ** Chart.js *)

Record Dataset := {
  label : string;
  data : field (list float);
  borderColor : string;
  backgroundColor : string;
  borderWidth : float;
  tension : float;
  pointRadius : float;
  pointHoverRadius : float
}.

Record ChartData := {
  labels : list Z;
  datasets : list Dataset
}.

(** The configuration handed to [new Chart]: its type, its data and the
    two callbacks of its options (the static styling options are left
    out). *)
Record ChartConfig := {
  type : string;
  config_data : ChartData;
  tooltip_callbacks_label : string -> float -> string;
  y_ticks_callback : float -> string
}.

(** ** The world the script runs in *)

Record RequestInit := {
  method : string;
  headers : list (string * string);
  body : string
}.

Inductive Event :=
| fetch (url : string) (init : RequestInit)
| console_error (message : string) (error : JsError)
| alert (message : string)
| Chart_new (id : nat) (canvas : string)
| Chart_destroy (id : nat).

Record World := {
  document : Document;
  (** [let projectionChart = null] and the chart it later refers to *)
  projectionChart : option nat;
  (** the chart instances that are alive, each with its configuration *)
  Chart_instances : list (nat * ChartConfig);
  (** the number of charts constructed so far *)
  Chart_count : nat;
  (** the calls that left the script, oldest first *)
  events : list Event
}.

(** The state of a freshly loaded page. *)
Definition page_load (doc : Document) : World :=
  {| document := doc; projectionChart := None; Chart_instances := [];
     Chart_count := 0; events := [] |}.

(** ** Computations: state and exceptions *)

Inductive Completion (A : Type) : Type :=
| Normal (a : A)
| Throw (e : JsError).

Arguments Normal {A} a.
Arguments Throw {A} e.

Definition M (A : Type) : Type := World -> Completion A * World.

Definition ret {A} (a : A) : M A := fun w => (Normal a, w).

Definition throw {A} (e : JsError) : M A := fun w => (Throw e, w).

Definition bind {A B} (m : M A) (k : A -> M B) : M B :=
  fun w =>
    match m w with
    | (Normal a, w') => k a w'
    | (Throw e, w') => (Throw e, w')
    end.

Notation "x <- m ;; k" := (bind m (fun x => k))
  (at level 61, m at next level, right associativity).
Notation "m ;;; k" := (bind m (fun _ => k))
  (at level 61, right associativity).

(** [try { body } catch (error) { handler } finally { finalizer }] *)
Definition try_catch_finally {A} (body : M A) (handler : JsError -> M A)
    (finalizer : M unit) : M A :=
  fun w =>
    let '(c, w1) :=
      match body w with
      | (Normal a, w') => (Normal a, w')
      | (Throw e, w') => handler e w'
      end in
    match finalizer w1 with
    | (Normal _, w2) => (c, w2)
    | (Throw e, w2) => (Throw e, w2)
    end.

Definition exec {A} (m : M A) (w : World) : World := snd (m w).

Definition emit (e : Event) : M unit :=
  fun w => (Normal tt,
            {| document := document w; projectionChart := projectionChart w;
               Chart_instances := Chart_instances w;
               Chart_count := Chart_count w; events := events w ++ [e] |}).

(** *** The DOM interface *)

(** [document.getElementById(id)]: a reference to the element. *)
Definition getElementById (id : string) : M string := ret id.

Definition get {A} (prop : Element -> A) (ref : string) : M A :=
  fun w => (Normal (prop (document w ref)), w).

Definition set (change : Element -> Element) (ref : string) : M unit :=
  fun w => (Normal tt,
            {| document := update (document w) ref (change (document w ref));
               projectionChart := projectionChart w;
               Chart_instances := Chart_instances w;
               Chart_count := Chart_count w; events := events w |}).

Definition appendChild (ref : string) (c : Element) : M unit :=
  set (with_child c) ref.

(** [xs.forEach(f)] *)
Fixpoint forEach {A} (xs : list A) (f : A -> M unit) : M unit :=
  match xs with
  | [] => ret tt
  | x :: xs' => f x ;;; forEach xs' f
  end.

(** *** The Chart.js interface *)

(** [new Chart(ctx, config)]: a new live instance. *)
Definition new_Chart (ctx : string) (config : ChartConfig) : M nat :=
  fun w =>
    let id := Chart_count w in
    (Normal id,
     {| document := document w; projectionChart := projectionChart w;
        Chart_instances := Chart_instances w ++ [(id, config)];
        Chart_count := S id;
        events := events w ++ [Chart_new id ctx] |}).

(** [chart.destroy()]: the instance is no longer alive. *)
Definition destroy (chart : nat) : M unit :=
  fun w =>
    (Normal tt,
     {| document := document w; projectionChart := projectionChart w;
        Chart_instances :=
          filter (fun c => negb (Nat.eqb (fst c) chart)) (Chart_instances w);
        Chart_count := Chart_count w;
        events := events w ++ [Chart_destroy chart] |}).

Definition get_projectionChart : M (option nat) :=
  fun w => (Normal (projectionChart w), w).

Definition set_projectionChart (c : option nat) : M unit :=
  fun w => (Normal tt,
            {| document := document w; projectionChart := c;
               Chart_instances := Chart_instances w;
               Chart_count := Chart_count w; events := events w |}).

(** *** Reading the decoded response *)

(** [obj.name] where [obj] was itself read from the response: a
    [TypeError] when [obj] is [undefined] or [null]. The text of the
    message differs from engine to engine; no property below depends
    on it. *)
Definition member {A} (obj : field Run) (name : string) (proj : Run -> A) : M A :=
  match obj with
  | Present r => ret (proj r)
  | Null => throw (TypeError ("Cannot read properties of null (reading '" ++ name ++ "')"))
  | Absent => throw (TypeError ("Cannot read properties of undefined (reading '" ++ name ++ "')"))
  end.

(** [...xs] inside an array literal: a [TypeError] unless [xs] is
    iterable. The text of the message differs from engine to engine; no
    property below depends on it. *)
Definition spread {A} (xs : field (list A)) : M (list A) :=
  match xs with
  | Present l => ret l
  | Null => throw (TypeError "null is not iterable")
  | Absent => throw (TypeError "undefined is not iterable")
  end.

(** [ToNumber] on a numeric property. *)
Definition ToNumber (v : field float) : float :=
  match v with
  | Present x => x
  | Null => 0%float
  | Absent => nan
  end.

(** [ToString] on a numeric property, as a template literal applies it;
    [number] renders a Number. *)
Definition ToString (number : float -> string) (v : field float) : string :=
  match v with
  | Present x => number x
  | Null => "null"
  | Absent => "undefined"
  end.

(** [v !== null] *)
Definition strict_not_null {A} (v : field A) : bool :=
  match v with
  | Null => false
  | _ => true
  end.

(** [Array.from({ length }, (_, i) => f(i))] *)
Definition Array_from {A} (length : nat) (f : Z -> A) : list A :=
  map (fun i => f (Z.of_nat i)) (seq 0 length).

(** ** The built-ins of the platform

    Functions of the JavaScript runtime that the script calls and that are
    no part of the repository. The script is verified for any runtime;
    [ECMAScript.runtime] below is the one of the ECMAScript standard. *)
Class Runtime := {
  (** the global [parseFloat] *)
  parseFloat : string -> float;
  (** [Number::toString], the conversion a template literal applies *)
  Number_toString : float -> string;
  (** the [format] method of the [Intl.NumberFormat] built for locale
      [en-US] with style [currency], currency [USD] and no fraction digit *)
  NumberFormat_format : float -> string;
  (** [JSON.stringify] on the request object *)
  JSON_stringify : JsObject -> string
}.

(** ** The script *)

Section Script.

Context {rt : Runtime}.

(** [const formatter = new Intl.NumberFormat('en-US', { style: 'currency',
    currency: 'USD', minimumFractionDigits: 0, maximumFractionDigits: 0 })] *)
Definition formatter_format (x : float) : string := NumberFormat_format x.

Definition dquote : string := String (ascii_of_nat 34) EmptyString.

Definition busy_label : string :=
  "<ion-icon name=" ++ dquote ++ "hourglass-outline" ++ dquote
  ++ "></ion-icon> Simulating...".

Definition idle_label : string :=
  "<ion-icon name=" ++ dquote ++ "rocket-outline" ++ dquote
  ++ "></ion-icon> Run Simulation".

(** The object literal [payload] of [runFullSimulation]. *)
Definition payload (monthlyIncome monthlyExpenses currentSavings
    currentInvestments goalCost investmentGrowth inflationRate
    savingsRate : float) (riskTolerance scenario : string) : JsObject :=
  [ ("monthly_income", JsNumber monthlyIncome);
    ("monthly_expenses", JsNumber monthlyExpenses);
    ("current_savings", JsNumber currentSavings);
    ("current_investments", JsNumber currentInvestments);
    ("goal_cost", JsNumber goalCost);
    ("investment_growth_rate", JsNumber ((investmentGrowth / 100) / 12)%float);
    ("inflation_rate", JsNumber ((inflationRate / 100) / 12)%float);
    ("monthly_savings_rate", JsNumber savingsRate);
    ("risk_tolerance", JsString riskTolerance);
    ("scenario", JsString scenario) ].

(** [document.getElementById(id).value] *)
Definition input_value (id : string) : M string :=
  input <- getElementById id ;; get value input.

(** [runFullSimulation] up to the construction of [payload]: the button
    is put in its busy state and the form is read. *)
Definition prepare : M (string * JsObject) :=
  submitBtn <- getElementById "submitBtn" ;;
  set (with_disabled true) submitBtn ;;;
  set (with_innerHTML busy_label) submitBtn ;;;
  monthlyIncome <- input_value "monthlyIncome" ;;
  monthlyExpenses <- input_value "monthlyExpenses" ;;
  currentSavings <- input_value "currentSavings" ;;
  currentInvestments <- input_value "currentInvestments" ;;
  goalCost <- input_value "goalCost" ;;
  investmentGrowth <- input_value "investmentGrowth" ;;
  inflationRate <- input_value "inflationRate" ;;
  savingsRate <- input_value "savingsRate" ;;
  riskTolerance <- input_value "riskTolerance" ;;
  scenario <- input_value "scenario" ;;
  ret (submitBtn,
       payload (parseFloat monthlyIncome) (parseFloat monthlyExpenses)
               (parseFloat currentSavings) (parseFloat currentInvestments)
               (parseFloat goalCost) (parseFloat investmentGrowth)
               (parseFloat inflationRate) (parseFloat savingsRate)
               riskTolerance scenario).

(** The call [fetch('/simulate', { method, headers, body })]. *)
Definition send (payload : JsObject) : M unit :=
  emit (fetch "/simulate"
          {| method := "POST";
             headers := [("Content-Type", "application/json")];
             body := JSON_stringify payload |}).

(** The Number a response status is. *)
Definition Number_of_Z (z : Z) : float :=
  SF2Prim (binary_normalize prec emax z 0 false).

(** The object literal [chartData] of [updateChart]. *)
Definition chartData (months : list Z) (base_history best_history
    worst_history scenario_history : field (list float)) : ChartData :=
  {| labels := months;
     datasets :=
       [ {| label := "Base Case";
            data := base_history;
            borderColor := "#007bff";
            backgroundColor := "rgba(0, 123, 255, 0.1)";
            borderWidth := 3;
            tension := 0.4;
            pointRadius := 0;
            pointHoverRadius := 6 |};
         {| label := "Best Case";
            data := best_history;
            borderColor := "#10b981";
            backgroundColor := "rgba(16, 185, 129, 0.1)";
            borderWidth := 3;
            tension := 0.4;
            pointRadius := 0;
            pointHoverRadius := 6 |};
         {| label := "Worst Case";
            data := worst_history;
            borderColor := "#ef4444";
            backgroundColor := "rgba(239, 68, 68, 0.1)";
            borderWidth := 3;
            tension := 0.4;
            pointRadius := 0;
            pointHoverRadius := 6 |};
         {| label := "What-If Scenario";
            data := scenario_history;
            borderColor := "#f59e0b";
            backgroundColor := "rgba(245, 158, 11, 0.1)";
            borderWidth := 3;
            tension := 0.4;
            pointRadius := 0;
            pointHoverRadius := 6 |} ] |}.

(** The object literal [config] of [updateChart]. *)
Definition config (chartData : ChartData) : ChartConfig :=
  {| type := "line";
     config_data := chartData;
     tooltip_callbacks_label := fun dataset_label y =>
       dataset_label ++ ": " ++ formatter_format y;
     y_ticks_callback := fun value => formatter_format value |}.

(** [updateChart(data)] *)
Definition updateChart (data : Data) : M unit :=
  let months := Array_from 120 (fun i => (i + 1)%Z) in
  base_history <- member (base data) "history" history ;;
  best_history <- member (best data) "history" history ;;
  worst_history <- member (worst data) "history" history ;;
  scenario_history <- member (scenario data) "history" history ;;
  let chartData :=
    chartData months base_history best_history worst_history scenario_history in
  let config := config chartData in
  chart <- get_projectionChart ;;
  match chart with
  | Some c => destroy c
  | None => ret tt
  end ;;;
  canvas <- getElementById "projectionChart" ;;
  let ctx := canvas in
  created <- new_Chart ctx config ;;
  set_projectionChart (Some created).

(** [updateUI(data)] is a sequence of six groups of statements, none
    of which uses a local of another; each group is given a name here.

    Line 72: the base net worth. *)
Definition render_baseNetWorth (data : Data) : M unit :=
  baseNetWorth <- getElementById "baseNetWorth" ;;
  base_worth <- member (base data) "final_net_worth" final_net_worth ;;
  set (with_textContent (formatter_format (ToNumber base_worth))) baseNetWorth.

(** Lines 74-78: the time to the goal. *)
Definition render_goalTime (data : Data) : M unit :=
  goal <- member (base data) "goal_1_month" goal_1_month ;;
  if strict_not_null goal then
    goalTime <- getElementById "goalTime" ;;
    goal <- member (base data) "goal_1_month" goal_1_month ;;
    set (with_textContent (ToString Number_toString goal ++ " months")) goalTime
  else
    goalTime <- getElementById "goalTime" ;;
    set (with_textContent "Not achieved") goalTime.

(** Lines 80-89: the impact of the scenario. *)
Definition render_scenarioImpact (data : Data) : M unit :=
  scenario_worth <- member (scenario data) "final_net_worth" final_net_worth ;;
  base_worth <- member (base data) "final_net_worth" final_net_worth ;;
  let scenarioImpact := (ToNumber scenario_worth - ToNumber base_worth)%float in
  impactElement <- getElementById "scenarioImpact" ;;
  set (with_textContent (formatter_format (abs scenarioImpact))) impactElement ;;;
  if (0 <=? scenarioImpact)%float then
    set (with_style_color "#10b981") impactElement ;;;
    shown <- get textContent impactElement ;;
    set (with_textContent ("+" ++ shown)) impactElement
  else
    set (with_style_color "#ef4444") impactElement ;;;
    shown <- get textContent impactElement ;;
    set (with_textContent ("-" ++ shown)) impactElement.

(** Lines 91-107: the list of risks. *)
Definition render_riskAlerts (data : Data) : M unit :=
  riskAlertsContainer <- getElementById "riskAlerts" ;;
  set (with_innerHTML "") riskAlertsContainer ;;;
  base_risks <- member (base data) "risks" risks ;;
  base_risks <- spread base_risks ;;
  scenario_risks <- member (scenario data) "risks" risks ;;
  scenario_risks <- spread scenario_risks ;;
  let allRisks := (base_risks ++ scenario_risks)%list in
  if (0 <? List.length allRisks)%nat then
    forEach allRisks (fun risk =>
      let p := createElement "p" in
      let p := with_textContent risk p in
      let p := with_className "risk-item" p in
      appendChild riskAlertsContainer p)
  else
    let p := createElement "p" in
    let p := with_textContent "No critical risks detected" p in
    let p := with_className "placeholder" p in
    appendChild riskAlertsContainer p.

(** Lines 109-125: the list of insights. *)
Definition render_keyInsights (data : Data) : M unit :=
  insightsContainer <- getElementById "keyInsights" ;;
  set (with_innerHTML "") insightsContainer ;;;
  base_insights <- member (base data) "insights" insights ;;
  base_insights <- spread base_insights ;;
  scenario_insights <- member (scenario data) "insights" insights ;;
  scenario_insights <- spread scenario_insights ;;
  let allInsights := (base_insights ++ scenario_insights)%list in
  if (0 <? List.length allInsights)%nat then
    forEach allInsights (fun insight =>
      let p := createElement "p" in
      let p := with_textContent insight p in
      let p := with_className "insight-item" p in
      appendChild insightsContainer p)
  else
    let p := createElement "p" in
    let p := with_textContent "Run simulation to see insights" p in
    let p := with_className "placeholder" p in
    appendChild insightsContainer p.

(** [updateUI(data)]; line 127 is the call of [updateChart]. *)
Definition updateUI (data : Data) : M unit :=
  render_baseNetWorth data ;;;
  render_goalTime data ;;;
  render_scenarioImpact data ;;;
  render_riskAlerts data ;;;
  render_keyInsights data ;;;
  updateChart data.

(** The [try] block of [runFullSimulation] once the exchange has
    settled with outcome [o]. *)
Definition receive (o : FetchOutcome) : M unit :=
  match o with
  | Rejected reason => throw reason
  | Response status body =>
      if negb (ok status) then
        throw (Error ("HTTP error! status: " ++ Number_toString (Number_of_Z status)))
      else
        match body with
        | Unparsable reason => throw reason
        | Parsed data => updateUI data
        end
  end.

(** The [catch] block. *)
Definition on_error (error : JsError) : M unit :=
  emit (console_error "Simulation error:" error) ;;;
  emit (alert "Simulation failed. Please check console for details.").

(** The [finally] block. *)
Definition restore (submitBtn : string) : M unit :=
  set (with_disabled false) submitBtn ;;;
  set (with_innerHTML idle_label) submitBtn.

(** [runFullSimulation()], where [o] is how the one exchange it starts
    settles. *)
Definition runFullSimulation (o : FetchOutcome) : M unit :=
  started <- prepare ;;
  let '(submitBtn, payload) := started in
  try_catch_finally (send payload ;;; receive o) on_error (restore submitBtn).

(** The world while the request is in flight: [runFullSimulation] is
    suspended at [await fetch(...)]. *)
Definition in_flight (w : World) : World :=
  exec (started <- prepare ;; send (snd started)) w.

End Script.

(** ** The built-ins as ECMAScript specifies them *)

Module ECMAScript.

(** *** Decimal numerals *)

Definition digit_value (c : ascii) : option Z :=
  let n := Z.of_nat (nat_of_ascii c) in
  if ((48 <=? n) && (n <=? 57))%Z then Some (n - 48)%Z else None.

(** The longest run of decimal digits at the head of [s]: [acc] extended
    by the digits, their number added to [n], and the rest of [s]. *)
Fixpoint take_digits (s : string) (acc n : Z) : Z * Z * string :=
  match s with
  | String c s' =>
      match digit_value c with
      | Some d => take_digits s' (10 * acc + d)%Z (n + 1)%Z
      | None => (acc, n, s)
      end
  | EmptyString => (acc, n, s)
  end.

Definition digit_char (d : Z) : ascii := ascii_of_nat (Z.to_nat (48 + d)).

(** The decimal digits of [z >= 0], most significant first; [fuel]
    bounds their number. *)
Fixpoint decimal_digits (fuel : nat) (z : Z) (acc : string) : string :=
  match fuel with
  | O => acc
  | S fuel' =>
      let acc' := String (digit_char (z mod 10)) acc in
      if (z <? 10)%Z then acc' else decimal_digits fuel' (z / 10) acc'
  end.

Definition decimal (z : Z) : string :=
  decimal_digits (S (Z.to_nat (Z.log2 z))) z "".

Fixpoint zeros (n : nat) : string :=
  match n with
  | O => ""
  | S n' => String "0" (zeros n')
  end.

(** *** Rounding a decimal to a Number *)

(** The binary64 value nearest to [m * 10^e] (ties to even), negated
    when [neg]; [m >= 0]. *)
Definition SF_of_decimal (neg : bool) (m e : Z) : spec_float :=
  match m with
  | Zpos p =>
      if (0 <=? e)%Z then
        binary_normalize prec emax (cond_Zopp neg (m * 10 ^ e)) 0 false
      else
        SFdiv prec emax (S754_finite neg p 0)
              (S754_finite false (Z.to_pos (10 ^ (- e))) 0)
  | _ => S754_zero neg
  end.

Definition Number_of_decimal (neg : bool) (m e : Z) : float :=
  SF2Prim (SF_of_decimal neg m e).

(** *** parseFloat *)

Definition code (c : ascii) : nat := nat_of_ascii c.

(** [s] without the white space and line terminators at its head
    (strings are UTF-8 encoded). *)
Fixpoint trim_start (s : string) : string :=
  match s with
  | String c s1 =>
      match code c, s1 with
      | 9, _ | 10, _ | 11, _ | 12, _ | 13, _ | 32, _ => trim_start s1
      | 194, String c2 s2 =>
          if Nat.eqb (code c2) 160 then trim_start s2 else s
      | 225, String c2 (String c3 s3) =>
          if Nat.eqb (code c2) 154 && Nat.eqb (code c3) 128 then trim_start s3 else s
      | 226, String c2 (String c3 s3) =>
          if Nat.eqb (code c2) 128
             && (Nat.leb 128 (code c3) && Nat.leb (code c3) 138
                 || Nat.eqb (code c3) 168 || Nat.eqb (code c3) 169
                 || Nat.eqb (code c3) 175)
          then trim_start s3
          else if Nat.eqb (code c2) 129 && Nat.eqb (code c3) 159 then trim_start s3
          else s
      | 227, String c2 (String c3 s3) =>
          if Nat.eqb (code c2) 128 && Nat.eqb (code c3) 128 then trim_start s3 else s
      | 239, String c2 (String c3 s3) =>
          if Nat.eqb (code c2) 187 && Nat.eqb (code c3) 191 then trim_start s3 else s
      | _, _ => s
      end
  | EmptyString => s
  end.

(** The exponent part [e], [E] with a signed integer at the head of [s],
    or 0 when there is none. *)
Definition exponent_part (s : string) : Z :=
  match s with
  | String c s1 =>
      if Ascii.eqb c "e" || Ascii.eqb c "E" then
        match s1 with
        | String "-" s2 =>
            let '(x, n, _) := take_digits s2 0 0 in
            if (n =? 0)%Z then 0%Z else (- x)%Z
        | String "+" s2 =>
            let '(x, n, _) := take_digits s2 0 0 in x
        | _ =>
            let '(x, n, _) := take_digits s1 0 0 in x
        end
      else 0%Z
  | EmptyString => 0%Z
  end.

(** The value of the longest prefix of [s] that is an unsigned decimal
    literal ([Infinity], digits with an optional fraction and exponent),
    [NaN] when there is none. *)
Definition unsigned_literal (neg : bool) (s : string) : float :=
  if String.prefix "Infinity" s then
    (if neg then neg_infinity else infinity)
  else
    let '(int_part, int_digits, s1) := take_digits s 0 0 in
    let '(mantissa, frac_digits, s2) :=
      match s1 with
      | String "." s1' => take_digits s1' int_part 0
      | _ => (int_part, 0%Z, s1)
      end in
    if (int_digits + frac_digits =? 0)%Z then nan
    else Number_of_decimal neg mantissa (exponent_part s2 - frac_digits).

Definition parseFloat (s : string) : float :=
  match trim_start s with
  | String "-" s' => unsigned_literal true s'
  | String "+" s' => unsigned_literal false s'
  | s' => unsigned_literal false s'
  end.

(** *** Number::toString *)

(** A positive finite Number as the fraction [num / den]. *)
Definition fraction (m : positive) (e : Z) : Z * Z :=
  if (0 <=? e)%Z then (Zpos m * 2 ^ e, 1)%Z else (Zpos m, 2 ^ (- e))%Z.

(** The [n] with [10^(n-1) <= num/den < 10^n], searched downward from
    [n] in at most [fuel] steps. *)
Fixpoint magnitude (fuel : nat) (num den n : Z) : Z :=
  match fuel with
  | O => n
  | S fuel' =>
      (* 10^(n-1) <= num/den *)
      if (if (1 <=? n) then (10 ^ (n - 1) * den <=? num) else (den <=? num * 10 ^ (1 - n)))%Z
      then n else magnitude fuel' num den (n - 1)
  end.

(** [num/den * 10^p] as a fraction. *)
Definition scale (num den p : Z) : Z * Z :=
  if (0 <=? p)%Z then (num * 10 ^ p, den)%Z else (num, den * 10 ^ (- p))%Z.

(** The shortest digits [s] (as a number with [k] digits) and the
    exponent [n] such that [s * 10^(n-k)] rounds to the Number [x], whose
    value is [num/den] with magnitude [n0]; [k] runs upward from
    [k] in at most [fuel] steps. *)
Fixpoint shortest (fuel : nat) (x : float) (num den n0 k : Z) : Z * Z * Z :=
  match fuel with
  | O => (0, n0, k)%Z
  | S fuel' =>
      let '(a, b) := scale num den (k - n0) in
      let lo := (a / b)%Z in
      let r := (a mod b)%Z in
      let hi := (lo + 1)%Z in
      let ok_lo := PrimFloat.eqb (Number_of_decimal false lo (n0 - k)) x in
      let ok_hi := PrimFloat.eqb (Number_of_decimal false hi (n0 - k)) x in
      let up := if (hi =? 10 ^ k)%Z then (10 ^ (k - 1), n0 + 1, k)%Z else (hi, n0, k) in
      let down := (lo, n0, k) in
      if (r =? 0)%Z then down
      else if ok_lo && ok_hi then
        match (2 * r ?= b)%Z with
        | Lt => down
        | Gt => up
        | Eq => if Z.even lo then down else up
        end
      else if ok_lo then down
      else if ok_hi then up
      else shortest fuel' x num den n0 (k + 1)
  end.

Definition substring_from (n : nat) (s : string) : string :=
  String.substring n (String.length s - n) s.

(** An [n] with [m * 2^e < 10^n], from the number of bits of [m]: the
    value is below [2^bits], and [0.30102 < log10 2 < 0.30103]. *)
Definition magnitude_bound (m : positive) (e : Z) : Z :=
  let bits := (Z.log2 (Zpos m) + 1 + e)%Z in
  ((if (0 <=? bits)%Z then bits * 30103 / 100000 else bits * 30102 / 100000) + 1)%Z.

Definition Number_toString_positive (x : float) (m : positive) (e : Z) : string :=
  let '(num, den) := fraction m e in
  let n0 := magnitude 700 num den (magnitude_bound m e) in
  let '(s, n, k) := shortest 17 x num den n0 1 in
  let digits := decimal s in
  if ((k <=? n) && (n <=? 21))%Z then
    digits ++ zeros (Z.to_nat (n - k))
  else if ((0 <? n) && (n <=? 21))%Z then
    String.substring 0 (Z.to_nat n) digits ++ "." ++ substring_from (Z.to_nat n) digits
  else if ((-6 <? n) && (n <=? 0))%Z then
    "0." ++ zeros (Z.to_nat (- n)) ++ digits
  else
    let ex := (n - 1)%Z in
    let sign := if (ex <? 0)%Z then "-" else "+" in
    (if (k =? 1)%Z then digits
     else String.substring 0 1 digits ++ "." ++ substring_from 1 digits)
    ++ "e" ++ sign ++ decimal (Z.abs ex).

Definition Number_toString (x : float) : string :=
  match Prim2SF x with
  | S754_nan => "NaN"
  | S754_zero _ => "0"
  | S754_infinity false => "Infinity"
  | S754_infinity true => "-Infinity"
  | S754_finite neg m e =>
      (if neg then "-" else "") ++ Number_toString_positive (abs x) m e
  end.

(** *** Intl.NumberFormat: en-US, currency USD, no fraction digit

    The digits are those of the exact value of the Number. Engines that
    format from the shortest digits that round to the Number print the
    same text up to [2^53] and may differ above it. *)

(** [digits] with a comma before every group of three digits that
    follows the first group. *)
Fixpoint group (digits : string) : string :=
  match digits with
  | String c rest =>
      String c (if (Nat.eqb (String.length rest mod 3) 0 && negb (Nat.eqb (String.length rest) 0))%nat
                then "," ++ group rest else group rest)
  | EmptyString => ""
  end.

(** The integer nearest to [m * 2^e], ties away from zero. *)
Definition round_half_expand (m : positive) (e : Z) : Z :=
  if (0 <=? e)%Z then (Zpos m * 2 ^ e)%Z
  else
    let d := (2 ^ (- e))%Z in
    let q := (Zpos m / d)%Z in
    let r := (Zpos m mod d)%Z in
    if (d <=? 2 * r)%Z then (q + 1)%Z else q.

Definition NumberFormat_format (x : float) : string :=
  match Prim2SF x with
  | S754_nan => "$NaN"
  | S754_zero neg => (if neg then "-" else "") ++ "$0"
  | S754_infinity neg => (if neg then "-" else "") ++ "$∞"
  | S754_finite neg m e =>
      (if neg then "-" else "") ++ "$" ++ group (decimal (round_half_expand m e))
  end.

(** *** JSON.stringify on an object of numbers and strings *)

Definition backslash : string := String (ascii_of_nat 92) EmptyString.

Definition hex_digit (n : nat) : string :=
  String (ascii_of_nat (if Nat.ltb n 10 then 48 + n else 87 + n)) EmptyString.

Fixpoint escaped (s : string) : string :=
  match s with
  | String c s' =>
      let n := code c in
      (if Nat.eqb n 8 then backslash ++ "b"
       else if Nat.eqb n 9 then backslash ++ "t"
       else if Nat.eqb n 10 then backslash ++ "n"
       else if Nat.eqb n 12 then backslash ++ "f"
       else if Nat.eqb n 13 then backslash ++ "r"
       else if Nat.eqb n 34 then backslash ++ dquote
       else if Nat.eqb n 92 then backslash ++ backslash
       else if Nat.ltb n 32 then
         backslash ++ "u00" ++ hex_digit (n / 16) ++ hex_digit (n mod 16)
       else String c EmptyString)
      ++ escaped s'
  | EmptyString => ""
  end.

Definition QuoteJSONString (s : string) : string :=
  dquote ++ escaped s ++ dquote.

Definition is_finite (x : float) : bool :=
  match Prim2SF x with
  | S754_nan | S754_infinity _ => false
  | _ => true
  end.

Definition serialized (v : JsValue) : string :=
  match v with
  | JsNumber x => if is_finite x then Number_toString x else "null"
  | JsString s => QuoteJSONString s
  end.

Fixpoint members (o : JsObject) : string :=
  match o with
  | [] => ""
  | [(k, v)] => QuoteJSONString k ++ ":" ++ serialized v
  | (k, v) :: o' => QuoteJSONString k ++ ":" ++ serialized v ++ "," ++ members o'
  end.

Definition JSON_stringify (o : JsObject) : string :=
  "{" ++ members o ++ "}".

(** The runtime of the ECMAScript standard. *)
Definition runtime : Runtime :=
  Build_Runtime parseFloat Number_toString NumberFormat_format JSON_stringify.

End ECMAScript.

(** ** Observations on worlds and runs *)

(** The requests among the calls that left the script. *)
Fixpoint requests (es : list Event) : list (string * RequestInit) :=
  match es with
  | [] => []
  | fetch url init :: es' => (url, init) :: requests es'
  | _ :: es' => requests es'
  end.

(** The two worlds have the same charts: the same [projectionChart], the
    same live instances, the same number of charts constructed. *)
Definition same_charts (w w' : World) : Prop :=
  projectionChart w' = projectionChart w /\
  Chart_instances w' = Chart_instances w /\
  Chart_count w' = Chart_count w.

(** The two worlds agree on every element but the one with id [id]. *)
Definition same_page_but (id : string) (w w' : World) : Prop :=
  forall id', id' <> id -> document w' id' = document w id'.

(** A computation keeps a relation between the world it starts in and the
    world it ends in, however it completes. *)
Definition keeps (R : World -> World -> Prop) {A} (m : M A) : Prop :=
  forall w, R w (snd (m w)).

(** A computation throws a [TypeError] in every world. *)
Definition fails {A} (m : M A) : Prop :=
  forall w, exists message, fst (m w) = Throw (TypeError message).

(** A computation throws nothing but a [TypeError]. *)
Definition safe {A} (m : M A) : Prop :=
  forall w,
    (exists a, fst (m w) = Normal a) \/
    (exists message, fst (m w) = Throw (TypeError message)).

(** The property holds a value. *)
Definition is_present {A} (v : field A) : bool :=
  match v with
  | Present _ => true
  | _ => false
  end.

(** The response holds its four runs. *)
Definition has_all_runs (data : Data) : bool :=
  is_present (base data) && is_present (best data)
  && is_present (worst data) && is_present (scenario data).

(** The worlds differ in the document at most. *)
Definition same_but_document (w w' : World) : Prop :=
  same_charts w w' /\ events w' = events w.

(** The worlds have made the same requests. *)
Definition same_requests (w w' : World) : Prop :=
  requests (events w') = requests (events w).

(** The element with id [id] is the same in both worlds. *)
Definition same_element (id : string) (w w' : World) : Prop :=
  document w' id = document w id.

(** One live chart at most, and [projectionChart] refers to it. *)
Definition chart_singleton (w : World) : Prop :=
  match projectionChart w with
  | None => Chart_instances w = []
  | Some c => exists cfg, Chart_instances w = [(c, cfg)]
  end.

(** Both Numbers are [Infinity], or both are [-Infinity]. *)
Definition same_infinity (x y : float) : bool :=
  match Prim2SF x, Prim2SF y with
  | S754_infinity sx, S754_infinity sy => Bool.eqb sx sy
  | _, _ => false
  end.

(** The value of a finite Number with sign [s], mantissa [m] and
    exponent [e'], as a multiple of [2^e]. *)
Definition scaled (s : bool) (m : positive) (e' e : Z) : Z :=
  cond_Zopp s (Zpos m * 2 ^ (e' - e))%Z.

(** The outcomes of the exchange that are failures: the network-level
    failure, the status that is no success, the body that does not parse. *)
Definition is_failure (o : FetchOutcome) : bool :=
  match o with
  | Rejected _ => true
  | Response status body =>
      negb (ok status)
      || match body with
         | Unparsable _ => true
         | Parsed _ => false
         end
  end.

(** The numeric inputs that go into the request as they are parsed, each
    with the key it goes under. *)
Definition passed_through : list (string * string) :=
  [ ("monthly_income", "monthlyIncome");
    ("monthly_expenses", "monthlyExpenses");
    ("current_savings", "currentSavings");
    ("current_investments", "currentInvestments");
    ("goal_cost", "goalCost");
    ("monthly_savings_rate", "savingsRate") ].

(** The notification of a failure. *)
Definition failure_alert : Event :=
  alert "Simulation failed. Please check console for details.".

(** A computation completes normally in every world, changes nothing but
    the element [id], and changes that element by [f]. *)
Definition writes (id : string) (f : Element -> Element) (m : M unit) : Prop :=
  forall w,
    fst (m w) = Normal tt /\
    same_but_document w (snd (m w)) /\
    same_page_but id w (snd (m w)) /\
    document (snd (m w)) id = f (document w id).

(** The [p] element that shows one entry of a list. *)
Definition paragraph (class text : string) : Element :=
  with_className class (with_textContent text (createElement "p")).

(** The histories a chart shows, dataset by dataset. *)
Definition visible_series (c : ChartConfig) : list (field (list float)) :=
  map data (datasets (config_data c)).

Section Observed.

Context {rt : Runtime}.

(** The request object [runFullSimulation] builds from the form as the
    world [w] has it. *)
Definition submitted (w : World) : JsObject :=
  let input id := value (document w id) in
  payload (parseFloat (input "monthlyIncome")) (parseFloat (input "monthlyExpenses"))
          (parseFloat (input "currentSavings")) (parseFloat (input "currentInvestments"))
          (parseFloat (input "goalCost")) (parseFloat (input "investmentGrowth"))
          (parseFloat (input "inflationRate")) (parseFloat (input "savingsRate"))
          (input "riskTolerance") (input "scenario").

(** The request [runFullSimulation] sends for the request object [o]. *)
Definition simulate_request (o : JsObject) : string * RequestInit :=
  ("/simulate",
   {| method := "POST";
      headers := [("Content-Type", "application/json")];
      body := JSON_stringify o |}).

(** The configuration [updateChart] builds for the result [r]. *)
Definition rendered_config (r : ProjectionResult) : ChartConfig :=
  config (chartData (Array_from 120 (fun i => (i + 1)%Z))
            (Present (series (base_run r))) (Present (series (best_run r)))
            (Present (series (worst_run r))) (Present (series (scenario_run r)))).

(** The world with the submission control in its busy state. *)
Definition busy (w : World) : World :=
  exec (set (with_disabled true) "submitBtn" ;;;
        set (with_innerHTML busy_label) "submitBtn") w.

(** Successive renders of the results [rs]. *)
Fixpoint renders (rs : list ProjectionResult) : M unit :=
  match rs with
  | [] => ret tt
  | r :: rs' => updateUI (decoded r) ;;; renders rs'
  end.

End Observed.

(** ** The submit listener and sessions *)

(** The [submit] event, as far as the listener acts on it. *)
Record SubmitEvent := {
  defaultPrevented : bool
}.

(** [e.preventDefault()] *)
Definition preventDefault (e : SubmitEvent) : SubmitEvent :=
  {| defaultPrevented := true |}.

(** What the user does to a field of the form. *)
Definition with_value (v : string) (e : Element) : Element :=
  mkElement (tagName e) v (disabled e) (innerHTML e) (textContent e)
            (className e) (style_color e) (childNodes e).

(** One use of the form: the user types [typed] (ids of fields, each
    with its new value) and submits; [outcome] is how the exchange of the
    run settles. *)
Record Submission := {
  typed : list (string * string);
  outcome : FetchOutcome
}.

Section Listener.

Context {rt : Runtime}.

(** Lines 13-16: the listener of the [submit] event of the form; it
    yields the event as it leaves it. *)
Definition submit_listener (e : SubmitEvent) (o : FetchOutcome) : M SubmitEvent :=
  let e := preventDefault e in
  runFullSimulation o ;;;
  ret e.

Definition type_in (field : string * string) : M unit :=
  set (with_value (snd field)) (fst field).

(** Successive uses of the form on one page; a run has settled when the
    next one starts. *)
Fixpoint session (ss : list Submission) : M unit :=
  match ss with
  | [] => ret tt
  | s :: ss' =>
      forEach (typed s) type_in ;;;
      submit_listener {| defaultPrevented := false |} (outcome s) ;;;
      session ss'
  end.

End Listener.

(** ** Further observations *)

(** The base and the scenario run hold their lists of risks and of
    insights. *)
Definition has_all_lists (data : Data) : bool :=
  match base data, scenario data with
  | Present b, Present s =>
      is_present (risks b) && is_present (risks s)
      && is_present (insights b) && is_present (insights s)
  | _, _ => false
  end.

(** What [updateUI] dereferences or iterates is there. *)
Definition renderable (data : Data) : bool :=
  has_all_runs data && has_all_lists data.

(** The sign bit of a Number; [NaN] has none. *)
Definition SF_sign (x : spec_float) : option bool :=
  match x with
  | S754_nan => None
  | S754_zero s | S754_infinity s | S754_finite s _ _ => Some s
  end.

Definition sign_of (x : float) : option bool := SF_sign (Prim2SF x).

(** The elements [runFullSimulation] and [updateUI] assign to. *)
Definition written_ids : list string :=
  ["submitBtn"; "baseNetWorth"; "goalTime"; "scenarioImpact"; "riskAlerts";
   "keyInsights"].

(** The two worlds agree on every element whose id is not among [ids]. *)
Definition same_page_outside (ids : list string) (w w' : World) : Prop :=
  forall id, ~ In id ids -> document w' id = document w id.

(** The errors handed to [console.error], oldest first. *)
Fixpoint logged (es : list Event) : list JsError :=
  match es with
  | [] => []
  | console_error _ error :: es' => error :: logged es'
  | _ :: es' => logged es'
  end.

(** The two worlds have the same document. *)
Definition same_document (w w' : World) : Prop :=
  document w' = document w.

(** The elements have the values they had: the form holds what it held. *)
Definition same_values (w w' : World) : Prop :=
  forall id, value (document w' id) = value (document w id).

(** One live chart at most after, if one at most before. *)
Definition singleton_kept (w w' : World) : Prop :=
  chart_singleton w -> chart_singleton w'.

(** A computation completes normally in every world. *)
Definition completes {A} (m : M A) : Prop :=
  forall w, exists a, fst (m w) = Normal a.

(** What a render makes of each of the five summary elements. *)
Section Rendered.

Context {rt : Runtime}.

Definition rendered (r : ProjectionResult) (id : string) (e : Element) : Element :=
  let scenarioImpact := (net_worth (scenario_run r) - net_worth (base_run r))%float in
  let allRisks := (risk_notes (base_run r) ++ risk_notes (scenario_run r))%list in
  let allInsights :=
    (insight_notes (base_run r) ++ insight_notes (scenario_run r))%list in
  if String.eqb id "baseNetWorth" then
    with_textContent (formatter_format (net_worth (base_run r))) e
  else if String.eqb id "goalTime" then
    with_textContent
      match base_goal r with
      | Some month => Number_toString month ++ " months"
      | None => "Not achieved"
      end e
  else if String.eqb id "scenarioImpact" then
    with_textContent
      ((if (0 <=? scenarioImpact)%float then "+" else "-")
       ++ formatter_format (abs scenarioImpact))
      (with_style_color
         (if (0 <=? scenarioImpact)%float then "#10b981" else "#ef4444") e)
  else if String.eqb id "riskAlerts" then
    match allRisks with
    | [] => with_child (paragraph "placeholder" "No critical risks detected")
              (with_innerHTML "" e)
    | _ => fold_left (fun e x => with_child (paragraph "risk-item" x) e) allRisks
              (with_innerHTML "" e)
    end
  else if String.eqb id "keyInsights" then
    match allInsights with
    | [] => with_child (paragraph "placeholder" "Run simulation to see insights")
              (with_innerHTML "" e)
    | _ => fold_left (fun e x => with_child (paragraph "insight-item" x) e)
              allInsights (with_innerHTML "" e)
    end
  else e.

End Rendered.

(** ** Sample pages and responses *)

Module Sample.

Definition input (v : string) : Element :=
  mkElement "input" v false "" "" "" "" [].

(** A page whose form holds [income] as monthly income and, in the
    other fields, the values of the end-to-end scenario of the
    specification. *)
Definition page_with_income (income : string) : Document :=
  fun id =>
    if String.eqb id "monthlyIncome" then input income
    else if String.eqb id "monthlyExpenses" then input "3000"
    else if String.eqb id "currentSavings" then input "10000"
    else if String.eqb id "currentInvestments" then input "20000"
    else if String.eqb id "goalCost" then input "50000"
    else if String.eqb id "investmentGrowth" then input "7"
    else if String.eqb id "inflationRate" then input "3"
    else if String.eqb id "savingsRate" then input "0.3"
    else if String.eqb id "riskTolerance" then input "moderate"
    else if String.eqb id "scenario" then input "job_loss"
    else createElement "div".

Definition page : Document := page_with_income "5000".

(** The same page with the income field left empty. *)
Definition page_without_income : Document := page_with_income "".

Definition projection (worth : float) (notes : list string) : Projection :=
  {| net_worth := worth;
     series := [worth; worth];
     risk_notes := notes;
     insight_notes := [] |}.

Definition result : ProjectionResult :=
  {| base_run := projection 1000 ["Low emergency fund"];
     base_goal := Some 37%float;
     best_run := projection 2000 [];
     worst_run := projection 500 [];
     scenario_run := projection 900 ["Income gap"; "Low emergency fund"];
     scenario_goal := None |}.

(** Both net worths overflow to [Infinity] (as [1e999] does when a
    response is decoded). *)
Definition unbounded : ProjectionResult :=
  {| base_run := projection infinity [];
     base_goal := None;
     best_run := projection infinity [];
     worst_run := projection 0 [];
     scenario_run := projection infinity [];
     scenario_goal := None |}.

(** [result] as decoded, without the [goal_1_month] of its base run. *)
Definition without_goal : Data :=
  {| base := Present (decoded_run (base_run result) Absent);
     best := best (decoded result);
     worst := worst (decoded result);
     scenario := scenario (decoded result) |}.


(** A response whose base run has no [final_net_worth]. *)
Definition without_net_worth : Data :=
  {| base :=
       Present {| final_net_worth := Absent;
                  history := Present [1000; 1000]%float;
                  risks := Present [];
                  insights := Present [];
                  goal_1_month := Null |};
     best := best (decoded result);
     worst := worst (decoded result);
     scenario := scenario (decoded result) |}.

End Sample.

(** Responses that parse and hold their four runs, with a property
    missing further down. *)
Module Cases.

(** The base run of [Sample.result] as decoded, without its [risks]. *)
Definition run_without_risks : Run :=
  {| final_net_worth := Present 1000%float;
     history := Present [1000; 1000]%float;
     risks := Absent;
     insights := Present [];
     goal_1_month := Present 37%float |}.

(** The scenario run of [Sample.result] as decoded. *)
Definition scenario_run_decoded : Run :=
  decoded_run (scenario_run Sample.result)
    (decoded_goal (scenario_goal Sample.result)).

Definition without_risks : Data :=
  {| base := Present run_without_risks;
     best := best (decoded Sample.result);
     worst := worst (decoded Sample.result);
     scenario := Present scenario_run_decoded |}.


Definition base_run_decoded : Run :=
  decoded_run (base_run Sample.result) (decoded_goal (base_goal Sample.result)).


(** The best run of [Sample.result] as decoded, without its [history]. *)
Definition run_without_history : Run :=
  {| final_net_worth := Present 2000%float;
     history := Absent;
     risks := Present [];
     insights := Present [];
     goal_1_month := Absent |}.

Definition worst_run_decoded : Run :=
  decoded_run (worst_run Sample.result) Absent.

Definition without_history : Data :=
  {| base := Present base_run_decoded;
     best := Present run_without_history;
     worst := Present worst_run_decoded;
     scenario := Present scenario_run_decoded |}.

(** The base run of [Sample.without_net_worth]. *)
Definition run_without_net_worth : Run :=
  {| final_net_worth := Absent;
     history := Present [1000; 1000]%float;
     risks := Present [];
     insights := Present [];
     goal_1_month := Null |}.

(** [Sample.result] as decoded, with [null] for its worst run. *)
Definition without_worst : Data :=
  {| base := Present base_run_decoded;
     best := best (decoded Sample.result);
     worst := Null;
     scenario := Present scenario_run_decoded |}.

(** The sample page with a chart alive and the risk list filled, as a
    render leaves them. *)
Definition rendered_page : Document :=
  fun id =>
    if String.eqb id "riskAlerts" then
      mkElement "div" "" false "" "" "" ""
        [mkElement "p" "" false "" "Low emergency fund" "risk-item" "" []]
    else Sample.page id.


(** Two uses of the form: the first exchange is rejected; then the
    income is corrected and the exchange succeeds. *)
Definition retry : list Submission :=
  [ {| typed := []; outcome := Rejected (TypeError "Failed to fetch") |};
    {| typed := [("monthlyIncome", "6000")];
       outcome := Response 200 (Parsed (decoded Sample.result)) |} ].

End Cases.

(** * Properties *)

(** ** The sign of a difference of Numbers *)

Section DifferenceSign.

Local Open Scope Z_scope.

Local Abbreviation emin := (SpecFloat.emin prec emax).
Local Abbreviation fexp := (SpecFloat.fexp prec emax).

Lemma emin_value : emin = -1074.
Proof. reflexivity. Qed.

Lemma fexp_value z : fexp z = Z.max (z - 53) (-1074).
Proof. reflexivity. Qed.

(** The number of binary digits bounds a positive number. *)
Lemma digits2_pos_bounds p :
  2 ^ (Zpos (digits2_pos p) - 1) <= Zpos p < 2 ^ Zpos (digits2_pos p).
Proof.
  induction p as [p IH | p IH |]; simpl digits2_pos.
  - rewrite Pos2Z.inj_succ.
    replace (Z.succ (Zpos (digits2_pos p)) - 1) with (Z.succ (Zpos (digits2_pos p) - 1)) by lia.
    rewrite !Z.pow_succ_r by lia. lia.
  - rewrite Pos2Z.inj_succ.
    replace (Z.succ (Zpos (digits2_pos p)) - 1) with (Z.succ (Zpos (digits2_pos p) - 1)) by lia.
    rewrite !Z.pow_succ_r by lia. lia.
  - simpl. lia.
Qed.

Lemma Zdigits2_bounds m :
  0 < m -> 2 ^ (Zdigits2 m - 1) <= m < 2 ^ Zdigits2 m.
Proof.
  destruct m as [| p | p]; try lia. intros _. apply digits2_pos_bounds.
Qed.

(** A mantissa and exponent that are valid for binary64. *)
Lemma bounded_inv m e :
  bounded prec emax m e = true ->
  Zpos (digits2_pos m) <= 53 /\ -1074 <= e /\
  (Zpos (digits2_pos m) = 53 \/ e = -1074).
Proof.
  unfold bounded, canonical_mantissa. rewrite fexp_value.
  intro H. apply andb_prop in H. destruct H as [H _].
  apply Z.eqb_eq in H. lia.
Qed.

(** Of two valid numbers the one with the smaller exponent is smaller. *)
Lemma bounded_lt m1 e1 m2 e2 :
  bounded prec emax m1 e1 = true -> bounded prec emax m2 e2 = true ->
  e1 < e2 -> Zpos m1 < Zpos m2 * 2 ^ (e2 - e1).
Proof.
  intros H1 H2 Hlt.
  destruct (bounded_inv _ _ H1) as (Hd1 & He1 & _).
  destruct (bounded_inv _ _ H2) as (Hd2 & He2 & [Hn | Hs]); [| lia].
  pose proof (digits2_pos_bounds m1) as [_ Hm1].
  pose proof (digits2_pos_bounds m2) as [Hm2 _].
  rewrite Hn in Hm2. simpl in Hm2.
  assert (Zpos m1 < 2 ^ 53).
  { eapply Z.lt_le_trans; [exact Hm1 |]. apply Z.pow_le_mono_r; lia. }
  assert (2 ^ 1 <= 2 ^ (e2 - e1)) by (apply Z.pow_le_mono_r; lia).
  change (2 ^ 53) with (2 ^ 52 * 2 ^ 1) in H. nia.
Qed.

Lemma iter_xO_value d : forall m, Zpos (Pos.iter xO m d) = Zpos m * 2 ^ Zpos d.
Proof.
  induction d as [| d IH] using Pos.peano_ind; intro m.
  - simpl. lia.
  - rewrite Pos.iter_succ, Pos2Z.inj_succ, Z.pow_succ_r by lia.
    rewrite Pos2Z.inj_xO, IH. lia.
Qed.

Lemma shl_align_value m e e' :
  e' <= e -> Zpos (fst (shl_align m e e')) = Zpos m * 2 ^ (e - e').
Proof.
  intro Hle. unfold shl_align.
  destruct (e' - e) as [| d | d] eqn:Hd; simpl fst.
  - replace (e - e') with 0 by lia. lia.
  - lia.
  - rewrite iter_xO_value. f_equal. f_equal. lia.
Qed.

Lemma shl_align_exponent m e e' :
  snd (shl_align m e e') = Z.min e e'.
Proof.
  unfold shl_align. destruct (e' - e) eqn:Hd; simpl; lia.
Qed.

(** Shifting to the right. *)

Lemma shr_m_shr_1 mrs :
  0 <= shr_m mrs -> shr_m (shr_1 mrs) = shr_m mrs / 2.
Proof.
  destruct mrs as [m r s]. simpl. intro Hm.
  destruct m as [| [p | p |] | p]; simpl.
  - reflexivity.
  - apply Z.div_unique with 1; lia.
  - apply Z.div_unique with 0; lia.
  - reflexivity.
  - lia.
Qed.

Lemma pow2_xO n : 2 ^ Zpos n~0 = 2 ^ Zpos n * 2 ^ Zpos n.
Proof.
  replace (Zpos n~0) with (Zpos n + Zpos n) by lia. apply Z.pow_add_r; lia.
Qed.

Lemma pow2_xI n : 2 ^ Zpos n~1 = 2 * (2 ^ Zpos n * 2 ^ Zpos n).
Proof.
  replace (Zpos n~1) with (1 + (Zpos n + Zpos n)) by lia.
  rewrite !Z.pow_add_r by lia. reflexivity.
Qed.

Lemma shr_m_iter n : forall mrs,
  0 <= shr_m mrs ->
  shr_m (iter_pos shr_1 n mrs) = shr_m mrs / 2 ^ Zpos n.
Proof.
  induction n as [n IH | n IH |]; intros mrs Hm; simpl iter_pos.
  - assert (H1 : 0 <= shr_m (shr_1 mrs)).
    { rewrite shr_m_shr_1 by exact Hm. apply Z.div_pos; lia. }
    assert (H2 : 0 <= shr_m (iter_pos shr_1 n (shr_1 mrs))).
    { rewrite IH by exact H1. apply Z.div_pos; lia. }
    rewrite IH, IH, shr_m_shr_1 by assumption.
    rewrite !Z.div_div by lia. rewrite pow2_xI. reflexivity.
  - assert (H2 : 0 <= shr_m (iter_pos shr_1 n mrs)).
    { rewrite IH by exact Hm. apply Z.div_pos; lia. }
    rewrite IH, IH by assumption.
    rewrite !Z.div_div by lia. rewrite pow2_xO. reflexivity.
  - rewrite shr_m_shr_1 by exact Hm. reflexivity.
Qed.

Lemma shr_m_of_loc m l : shr_m (shr_record_of_loc m l) = m.
Proof. destruct l as [| []]; reflexivity. Qed.

(** Rounding a positive mantissa whose exponent is not below the smallest
    one leaves a positive mantissa. *)
Lemma shr_fexp_positive m e l :
  0 < m -> emin <= e ->
  0 < shr_m (fst (shr_fexp prec emax m e l)) /\
  emin <= snd (shr_fexp prec emax m e l).
Proof.
  intros Hm He. unfold shr_fexp, shr. rewrite fexp_value, emin_value in *.
  pose proof (Zdigits2_bounds m Hm) as [Hlow _].
  assert (Hd : 0 < Zdigits2 m).
  { destruct m; simpl; lia. }
  destruct (Z.max (Zdigits2 m + e - 53) (-1074) - e) as [| n | n] eqn:Hn;
    cbn [fst snd]; try (rewrite shr_m_of_loc; lia).
  rewrite shr_m_iter by (rewrite shr_m_of_loc; lia).
  rewrite shr_m_of_loc. split; [| lia].
  assert (Hle : Zpos n <= Zdigits2 m - 1) by lia.
  apply Z.div_str_pos. split; [lia |].
  eapply Z.le_trans; [| exact Hlow]. apply Z.pow_le_mono_r; lia.
Qed.

Lemma round_nearest_even_positive m l : 0 < m -> 0 < round_nearest_even m l.
Proof.
  intro Hm. destruct l as [| []]; simpl; try lia.
  destruct (Z.even m); lia.
Qed.

Lemma binary_round_aux_signed s m e l :
  0 < m -> emin <= e ->
  (exists m' e', binary_round_aux prec emax s m e l = S754_finite s m' e') \/
  binary_round_aux prec emax s m e l = S754_infinity s.
Proof.
  intros Hm He. unfold binary_round_aux.
  destruct (shr_fexp_positive m e l Hm He) as [H1 He1].
  destruct (shr_fexp prec emax m e l) as [mrs' e']. cbn [fst snd] in H1, He1.
  pose proof (round_nearest_even_positive _ (loc_of_shr_record mrs') H1) as H2.
  destruct (shr_fexp_positive _ e' loc_Exact H2 He1) as [H3 _].
  destruct (shr_fexp prec emax (round_nearest_even (shr_m mrs') (loc_of_shr_record mrs')) e' loc_Exact)
    as [mrs'' e'']. cbn [fst] in H3.
  destruct (shr_m mrs'') as [| p | p]; try lia.
  destruct (e'' <=? emax - prec); [left; eauto | right; reflexivity].
Qed.

Lemma binary_round_signed s m e :
  emin <= e ->
  (exists m' e', binary_round prec emax s m e = S754_finite s m' e') \/
  binary_round prec emax s m e = S754_infinity s.
Proof.
  intro He. unfold binary_round.
  pose proof (shl_align_exponent m e (fexp (Zpos (digits2_pos m) + e))) as Hex.
  destruct (shl_align m e (fexp (Zpos (digits2_pos m) + e))) as [mz ez].
  cbn [snd] in Hex. apply binary_round_aux_signed; [lia |].
  rewrite Hex, fexp_value, emin_value in *. lia.
Qed.

Lemma binary_normalize_nonneg d e :
  emin <= e ->
  SFleb (S754_zero false) (binary_normalize prec emax d e false) = (0 <=? d).
Proof.
  intro He. destruct d as [| p | p]; simpl binary_normalize.
  - reflexivity.
  - destruct (binary_round_signed false p e He) as [(m' & e' & ->) | ->]; reflexivity.
  - destruct (binary_round_signed true p e He) as [(m' & e' & ->) | ->]; reflexivity.
Qed.

Lemma SFsub_finite_nonneg sx mx ex sy my ey :
  bounded prec emax mx ex = true -> bounded prec emax my ey = true ->
  SFleb (S754_zero false) (SF64sub (S754_finite sx mx ex) (S754_finite sy my ey))
  = (0 <=? scaled sx mx ex (Z.min ex ey) - scaled sy my ey (Z.min ex ey)).
Proof.
  intros Hx Hy.
  destruct (bounded_inv _ _ Hx) as (_ & Hex & _).
  destruct (bounded_inv _ _ Hy) as (_ & Hey & _).
  unfold SF64sub, SFsub. rewrite binary_normalize_nonneg by (rewrite emin_value; lia).
  rewrite !shl_align_value by lia. reflexivity.
Qed.

Lemma SFcompare_finite sx mx ex sy my ey :
  bounded prec emax mx ex = true -> bounded prec emax my ey = true ->
  SFcompare (S754_finite sx mx ex) (S754_finite sy my ey)
  = Some (scaled sx mx ex (Z.min ex ey) ?= scaled sy my ey (Z.min ex ey)).
Proof.
  intros Hx Hy. unfold scaled. simpl SFcompare.
  assert (Hpx : 0 < Zpos mx * 2 ^ (ex - Z.min ex ey)).
  { apply Z.mul_pos_pos; [lia | apply Z.pow_pos_nonneg; lia]. }
  assert (Hpy : 0 < Zpos my * 2 ^ (ey - Z.min ex ey)).
  { apply Z.mul_pos_pos; [lia | apply Z.pow_pos_nonneg; lia]. }
  assert (Hcases :
    (ex < ey /\ Zpos mx * 2 ^ (ex - Z.min ex ey) < Zpos my * 2 ^ (ey - Z.min ex ey)) \/
    (ey < ex /\ Zpos my * 2 ^ (ey - Z.min ex ey) < Zpos mx * 2 ^ (ex - Z.min ex ey)) \/
    (ex = ey /\ Zpos mx * 2 ^ (ex - Z.min ex ey) = Zpos mx /\
                Zpos my * 2 ^ (ey - Z.min ex ey) = Zpos my)).
  { destruct (Z.lt_total ex ey) as [Hlt | [Heq | Hgt]].
    - left. split; [exact Hlt |].
      replace (Z.min ex ey) with ex by lia. rewrite Z.sub_diag, Z.mul_1_r.
      apply bounded_lt; assumption.
    - right. right. subst ey. rewrite Z.min_id, Z.sub_diag. lia.
    - right. left. split; [exact Hgt |].
      replace (Z.min ex ey) with ey by lia. rewrite Z.sub_diag, Z.mul_1_r.
      apply bounded_lt; assumption. }
  f_equal. symmetry.
  destruct Hcases as [[He Hv] | [[He Hv] | (He & Hvx & Hvy)]].
  - apply Z.compare_lt_iff in He as Hc. rewrite Hc.
    destruct sx, sy; cbn [cond_Zopp];
      [apply Z.compare_gt_iff | apply Z.compare_lt_iff
       | apply Z.compare_gt_iff | apply Z.compare_lt_iff]; lia.
  - apply Z.compare_gt_iff in He as Hc. rewrite Hc.
    destruct sx, sy; cbn [cond_Zopp];
      [apply Z.compare_lt_iff | apply Z.compare_lt_iff
       | apply Z.compare_gt_iff | apply Z.compare_gt_iff]; lia.
  - subst ey. rewrite Z.compare_refl, Hvx, Hvy.
    destruct sx, sy; reflexivity.
Qed.

(** The sign of a difference of two Numbers follows their order, unless
    both are the same infinity. *)
Lemma SFsub_sign x y :
  valid_binary x = true -> valid_binary y = true ->
  (SFleb y x = true ->
   match x, y with
   | S754_infinity sx, S754_infinity sy => Bool.eqb sx sy = false
   | _, _ => True
   end ->
   SFleb (S754_zero false) (SF64sub x y) = true) /\
  (SFltb x y = true -> SFleb (S754_zero false) (SF64sub x y) = false).
Proof.
  intros Hx Hy.
  unfold SF64sub.
  destruct x as [sx | sx | | sx mx ex], y as [sy | sy | | sy my ey];
    try solve [ split; cbv; intros; congruence
              | destruct sx; split; cbv; intros; congruence
              | destruct sy; split; cbv; intros; congruence
              | destruct sx, sy; split; cbv; intros; congruence ].
  fold (SF64sub (S754_finite sx mx ex) (S754_finite sy my ey)).
  simpl in Hx, Hy. rewrite SFsub_finite_nonneg by assumption.
    unfold SFleb, SFltb. rewrite !SFcompare_finite by assumption.
    rewrite Z.min_comm.
    split.
    + intros H _. apply Z.leb_le.
      destruct (Z.compare_spec (scaled sy my ey (Z.min ex ey))
                               (scaled sx mx ex (Z.min ex ey))); [lia | lia | discriminate].
    + intros H. apply Z.leb_gt.
      rewrite (Z.min_comm ex ey) in H.
      destruct (Z.compare_spec (scaled sx mx ex (Z.min ey ex))
                               (scaled sy my ey (Z.min ey ex))) as [| Hlt |];
        [discriminate | | discriminate].
      rewrite (Z.min_comm ex ey). lia.
Qed.

Lemma difference_sign (s b : float) :
  ((b <=? s)%float = true -> same_infinity s b = false ->
   (0 <=? s - b)%float = true) /\
  ((s <? b)%float = true -> (0 <=? s - b)%float = false).
Proof.
  rewrite ltb_spec, !leb_spec, sub_spec.
  change (Prim2SF 0) with (S754_zero false).
  destruct (SFsub_sign (Prim2SF s) (Prim2SF b) (Prim2SF_valid s) (Prim2SF_valid b))
    as [Hle Hlt].
  split; [| exact Hlt].
  intros H Hinf. apply Hle; [exact H |].
  unfold same_infinity in Hinf. destruct (Prim2SF s), (Prim2SF b); trivial.
Qed.

End DifferenceSign.

(** ** The sign of a quotient of Numbers *)

Section QuotientSign.

Local Open Scope Z_scope.

Lemma shr_fexp_nonneg m e l :
  0 <= m -> 0 <= shr_m (fst (shr_fexp prec emax m e l)).
Proof.
  intro Hm. unfold shr_fexp, shr.
  destruct (SpecFloat.fexp prec emax (Zdigits2 m + e) - e) as [| n | n];
    cbn [fst]; try (rewrite shr_m_of_loc; exact Hm).
  rewrite shr_m_iter by (rewrite shr_m_of_loc; exact Hm).
  rewrite shr_m_of_loc. apply Z.div_pos; lia.
Qed.

Lemma round_nearest_even_nonneg m l : 0 <= m -> 0 <= round_nearest_even m l.
Proof.
  intro Hm. destruct l as [| []]; simpl; try lia.
  destruct (Z.even m); lia.
Qed.

(** Rounding a mantissa that is not negative gives a Number with the
    sign asked for. *)
Lemma binary_round_aux_sign s m e l :
  0 <= m -> SF_sign (binary_round_aux prec emax s m e l) = Some s.
Proof.
  intro Hm. unfold binary_round_aux.
  pose proof (shr_fexp_nonneg m e l Hm) as H1.
  destruct (shr_fexp prec emax m e l) as [mrs' e']. cbn [fst] in H1.
  pose proof (round_nearest_even_nonneg _ (loc_of_shr_record mrs') H1) as H2.
  pose proof (shr_fexp_nonneg _ e' loc_Exact H2) as H3.
  destruct (shr_fexp prec emax (round_nearest_even (shr_m mrs') (loc_of_shr_record mrs')) e' loc_Exact)
    as [mrs'' e'']. cbn [fst] in H3.
  destruct (shr_m mrs'') as [| p | p]; try lia.
  - reflexivity.
  - destruct (e'' <=? emax - prec); reflexivity.
Qed.

Lemma SFdiv_core_binary_nonneg m1 e1 m2 e2 :
  0 <= m1 -> 0 < m2 ->
  0 <= fst (fst (SFdiv_core_binary prec emax m1 e1 m2 e2)).
Proof.
  intros H1 H2. unfold SFdiv_core_binary.
  set (s := e1 - e2 - _).
  set (m' := match s with Z0 => m1 | Zpos _ => Z.shiftl m1 s | Zneg _ => 0 end).
  assert (Hm' : 0 <= m').
  { subst m'. destruct s; try lia. apply Z.shiftl_nonneg. exact H1. }
  pose proof (Z.div_pos m' m2 Hm' H2) as Hq. unfold Z.div in Hq.
  destruct (Z.div_eucl m' m2) as [q r]. exact Hq.
Qed.

(** Dividing by a positive finite Number keeps the sign, and gives
    [NaN] for [NaN] only. *)
Lemma SFdiv_positive_sign x my ey :
  SF_sign (SF64div x (S754_finite false my ey)) = SF_sign x.
Proof.
  unfold SF64div. destruct x as [sx | sx | | sx mx ex]; simpl SFdiv.
  - destruct sx; reflexivity.
  - destruct sx; reflexivity.
  - reflexivity.
  - pose proof (SFdiv_core_binary_nonneg (Zpos mx) ex (Zpos my) ey) as Hq.
    destruct (SFdiv_core_binary prec emax (Zpos mx) ex (Zpos my) ey) as [[mz ez] lz].
    cbn [fst] in Hq. rewrite binary_round_aux_sign by (apply Hq; lia).
    destruct sx; reflexivity.
Qed.

Lemma div_positive_sign (x y : float) my ey :
  Prim2SF y = S754_finite false my ey -> sign_of (x / y) = sign_of x.
Proof.
  intro Hy. unfold sign_of. rewrite div_spec, Hy. apply SFdiv_positive_sign.
Qed.

(** The conversion of a yearly percentage to a monthly fraction. *)
Lemma monthly_rate_sign (x : float) : sign_of ((x / 100) / 12) = sign_of x.
Proof.
  rewrite (div_positive_sign (x / 100) 12 6755399441055744 (-49)) by reflexivity.
  apply (div_positive_sign x 100 7036874417766400 (-46)). reflexivity.
Qed.

(** The absolute value of a Number has its sign bit clear. *)
Lemma abs_sign (x : float) : sign_of (abs x) <> Some true.
Proof.
  unfold sign_of. rewrite abs_spec. destruct (Prim2SF x); discriminate.
Qed.

End QuotientSign.

Section Properties.

Context {rt : Runtime}.

(** ** Rules for the relations a computation keeps *)

Section Keeps.

Variable R : World -> World -> Prop.
Hypothesis R_refl : forall w, R w w.
Hypothesis R_trans : forall w1 w2 w3, R w1 w2 -> R w2 w3 -> R w1 w3.

Lemma keeps_ret A (a : A) : keeps R (ret a).
Proof. intro w. apply R_refl. Qed.

Lemma keeps_throw A (e : JsError) : keeps R (@throw A e).
Proof. intro w. apply R_refl. Qed.

Lemma keeps_bind A B (m : M A) (k : A -> M B) :
  keeps R m -> (forall a, keeps R (k a)) -> keeps R (bind m k).
Proof.
  intros Hm Hk w. unfold bind.
  specialize (Hm w). destruct (m w) as [[a | e] w1]; simpl in *.
  - eapply R_trans; [exact Hm | apply Hk].
  - exact Hm.
Qed.

Lemma keeps_get A (prop : Element -> A) ref : keeps R (get prop ref).
Proof. intro w. apply R_refl. Qed.

Lemma keeps_getElementById id : keeps R (getElementById id).
Proof. intro w. apply R_refl. Qed.

Lemma keeps_get_projectionChart : keeps R get_projectionChart.
Proof. intro w. apply R_refl. Qed.

Lemma keeps_member A obj name (proj : Run -> A) : keeps R (member obj name proj).
Proof. destruct obj; intro w; apply R_refl. Qed.

Lemma keeps_spread A (xs : field (list A)) : keeps R (spread xs).
Proof. destruct xs; intro w; apply R_refl. Qed.

Lemma keeps_forEach A (xs : list A) (f : A -> M unit) :
  (forall x, keeps R (f x)) -> keeps R (forEach xs f).
Proof.
  intro Hf. induction xs as [| x xs IH]; simpl.
  - apply keeps_ret.
  - apply keeps_bind; [apply Hf | intros _; exact IH].
Qed.

Lemma keeps_try_catch_finally A (body : M A) handler finalizer :
  keeps R body -> (forall e, keeps R (handler e)) -> keeps R finalizer ->
  keeps R (try_catch_finally body handler finalizer).
Proof.
  intros Hb Hh Hf w. unfold try_catch_finally.
  specialize (Hb w). destruct (body w) as [[a | e] w1]; simpl in *.
  - specialize (Hf w1). destruct (finalizer w1) as [[u | e] w2]; simpl in *;
      eapply R_trans; eauto.
  - specialize (Hh e w1). destruct (handler e w1) as [c w2]; simpl in *.
    specialize (Hf w2). destruct (finalizer w2) as [[u | e'] w3]; simpl in *;
      eapply R_trans; eauto.
Qed.

End Keeps.

(** The relations are preorders. *)

Lemma same_charts_refl w : same_charts w w.
Proof. repeat split. Qed.

Lemma same_charts_trans w1 w2 w3 :
  same_charts w1 w2 -> same_charts w2 w3 -> same_charts w1 w3.
Proof.
  intros (H1 & H2 & H3) (H4 & H5 & H6). repeat split; congruence.
Qed.

Lemma same_but_document_refl w : same_but_document w w.
Proof. split; [apply same_charts_refl | reflexivity]. Qed.

Lemma same_but_document_trans w1 w2 w3 :
  same_but_document w1 w2 -> same_but_document w2 w3 -> same_but_document w1 w3.
Proof.
  intros [H1 H2] [H3 H4]. split.
  - eapply same_charts_trans; eassumption.
  - congruence.
Qed.

Lemma same_requests_refl w : same_requests w w.
Proof. reflexivity. Qed.

Lemma same_requests_trans w1 w2 w3 :
  same_requests w1 w2 -> same_requests w2 w3 -> same_requests w1 w3.
Proof. unfold same_requests. congruence. Qed.

Lemma same_element_refl id w : same_element id w w.
Proof. reflexivity. Qed.

Lemma same_element_trans id w1 w2 w3 :
  same_element id w1 w2 -> same_element id w2 w3 -> same_element id w1 w3.
Proof. unfold same_element. congruence. Qed.

Lemma same_page_but_refl id w : same_page_but id w w.
Proof. intros id' _. reflexivity. Qed.

Lemma same_page_but_trans id w1 w2 w3 :
  same_page_but id w1 w2 -> same_page_but id w2 w3 -> same_page_but id w1 w3.
Proof.
  intros H1 H2 id' Hne. rewrite (H2 id' Hne). apply H1, Hne.
Qed.

(** What each primitive keeps. *)

Lemma requests_app es es' : requests (es ++ es') = (requests es ++ requests es')%list.
Proof.
  induction es as [| [] es IH]; simpl; try rewrite IH; reflexivity.
Qed.

Lemma set_same_but_document change ref : keeps same_but_document (set change ref).
Proof. intro w. repeat split. Qed.

Lemma set_same_requests change ref : keeps same_requests (set change ref).
Proof. intro w. reflexivity. Qed.

Lemma set_same_element change ref id :
  ref <> id -> keeps (same_element id) (set change ref).
Proof.
  intros Hne w. unfold same_element, set, update; simpl.
  destruct (String.eqb_spec ref id); [contradiction | reflexivity].
Qed.

Lemma set_same_page_but change ref : keeps (same_page_but ref) (set change ref).
Proof.
  intros w id' Hne. unfold set, update; simpl.
  destruct (String.eqb_spec ref id'); [congruence | reflexivity].
Qed.

Lemma emit_same_requests e :
  requests [e] = [] -> keeps same_requests (emit e).
Proof.
  intros He w. unfold same_requests, emit; simpl.
  rewrite requests_app, He. apply app_nil_r.
Qed.

Lemma emit_same_element e id : keeps (same_element id) (emit e).
Proof. intro w. reflexivity. Qed.

Lemma emit_same_page_but e id : keeps (same_page_but id) (emit e).
Proof. intros w id' _. reflexivity. Qed.

Lemma new_Chart_same_requests ctx cfg : keeps same_requests (new_Chart ctx cfg).
Proof.
  intro w. unfold same_requests, new_Chart; simpl.
  rewrite requests_app. apply app_nil_r.
Qed.

Lemma new_Chart_same_element ctx cfg id : keeps (same_element id) (new_Chart ctx cfg).
Proof. intro w. reflexivity. Qed.

Lemma destroy_same_requests c : keeps same_requests (destroy c).
Proof.
  intro w. unfold same_requests, destroy; simpl.
  rewrite requests_app. apply app_nil_r.
Qed.

Lemma destroy_same_element c id : keeps (same_element id) (destroy c).
Proof. intro w. reflexivity. Qed.

Lemma set_projectionChart_same_requests c : keeps same_requests (set_projectionChart c).
Proof. intro w. reflexivity. Qed.

Lemma set_projectionChart_same_element c id :
  keeps (same_element id) (set_projectionChart c).
Proof. intro w. reflexivity. Qed.

Create HintDb keeps.

#[local] Hint Resolve same_charts_refl same_charts_trans same_but_document_refl
  same_but_document_trans same_requests_refl same_requests_trans
  same_element_refl same_element_trans same_page_but_refl
  same_page_but_trans : keeps.
#[local] Hint Resolve keeps_ret keeps_throw keeps_get keeps_getElementById
  keeps_get_projectionChart keeps_member keeps_spread : keeps.
#[local] Hint Resolve set_same_but_document set_same_requests set_same_page_but
  emit_same_element emit_same_page_but new_Chart_same_requests
  new_Chart_same_element destroy_same_requests destroy_same_element
  set_projectionChart_same_requests set_projectionChart_same_element : keeps.

(** Takes a computation of the script apart along its binds, branches
    and loops, and closes the primitives with the rules above. *)
Ltac keeps_all :=
  repeat (cbv beta zeta;
    match goal with
    | |- keeps ?R (bind (getElementById ?id) ?k) => change (keeps R (k id))
    | |- keeps _ (bind _ _) => apply keeps_bind; [solve [eauto with keeps] | | intros]
    | |- keeps _ (forEach _ _) =>
        apply keeps_forEach; [solve [eauto with keeps] | solve [eauto with keeps] | intros]
    | |- keeps _ (try_catch_finally _ _ _) =>
        apply keeps_try_catch_finally; [solve [eauto with keeps] | | intros | ]
    | |- keeps _ (appendChild _ _) => unfold appendChild
    | |- keeps _ (if ?b then _ else _) => destruct b
    | |- keeps _ (match ?x with _ => _ end) => destruct x
    | |- keeps (same_element _) (set _ _) => apply set_same_element; discriminate
    | |- keeps same_requests (emit _) => apply emit_same_requests; reflexivity
    | |- keeps _ _ => solve [eauto with keeps]
    end).

Lemma updateChart_same_requests data : keeps same_requests (updateChart data).
Proof. unfold updateChart. keeps_all. Qed.

Ltac unfold_updateUI :=
  unfold updateUI, render_baseNetWorth, render_goalTime, render_scenarioImpact,
    render_riskAlerts, render_keyInsights.

Lemma updateUI_same_requests data : keeps same_requests (updateUI data).
Proof.
  unfold_updateUI. keeps_all. apply updateChart_same_requests.
Qed.


Lemma receive_same_requests o : keeps same_requests (receive o).
Proof.
  unfold receive. keeps_all. apply updateUI_same_requests.
Qed.

Lemma on_error_same_requests e : keeps same_requests (on_error e).
Proof. unfold on_error. keeps_all. Qed.

Lemma restore_same_requests ref : keeps same_requests (restore ref).
Proof. unfold restore. keeps_all. Qed.

(** ** The run of [runFullSimulation] *)

Lemma prepare_run w : prepare w = (Normal ("submitBtn", submitted w), busy w).
Proof. reflexivity. Qed.

Lemma in_flight_run w :
  in_flight w = exec (send (submitted w)) (busy w).
Proof. reflexivity. Qed.

(** The run passes through the in-flight world: what follows the
    [await] starts there. *)
Lemma runFullSimulation_run o w :
  runFullSimulation o w =
  try_catch_finally (receive o) on_error (restore "submitBtn") (in_flight w).
Proof. reflexivity. Qed.

Lemma in_flight_events w :
  events (in_flight w)
  = (events w ++
     [ fetch "/simulate"
         {| method := "POST";
            headers := [("Content-Type", "application/json")];
            body := JSON_stringify (submitted w) |} ])%list.
Proof. reflexivity. Qed.

Lemma in_flight_same_charts w : same_charts w (in_flight w).
Proof. repeat split. Qed.

Lemma in_flight_same_page w : same_page_but "submitBtn" w (in_flight w).
Proof.
  intros id' Hne. rewrite in_flight_run. unfold exec, send, emit, busy, exec.
  cbn -[String.eqb]. unfold update.
  destruct (String.eqb_spec "submitBtn" id'); [congruence | reflexivity].
Qed.

Lemma in_flight_requests w :
  requests (events (in_flight w))
  = (requests (events w) ++ [simulate_request (submitted w)])%list.
Proof.
  rewrite in_flight_run. unfold exec, send, emit, busy; simpl.
  rewrite requests_app. reflexivity.
Qed.

Lemma settle_same_requests o :
  keeps same_requests (try_catch_finally (receive o) on_error (restore "submitBtn")).
Proof.
  apply keeps_try_catch_finally.
  - apply same_requests_trans.
  - apply receive_same_requests.
  - apply on_error_same_requests.
  - apply restore_same_requests.
Qed.

Lemma runFullSimulation_requests o w :
  requests (events (exec (runFullSimulation o) w))
  = (requests (events w) ++ [simulate_request (submitted w)])%list.
Proof.
  unfold exec. rewrite runFullSimulation_run.
  rewrite (settle_same_requests o (in_flight w)).
  apply in_flight_requests.
Qed.

(** ** Rendering *)

Lemma forEach_appendChild A (mk : A -> Element) ref xs : forall w,
  let run := forEach xs (fun x => appendChild ref (mk x)) w in
  fst run = Normal tt /\
  same_but_document w (snd run) /\
  same_page_but ref w (snd run) /\
  document (snd run) ref = fold_left (fun e x => with_child (mk x) e) xs (document w ref).
Proof.
  induction xs as [| x xs IH]; intro w; simpl.
  - repeat split.
  - unfold bind, appendChild at 1, set at 1. simpl.
    match goal with |- context [forEach xs _ ?w1] => specialize (IH w1) end.
    simpl in IH. destruct IH as (Hc & Hsame & Hpage & Hdoc).
    repeat split; try apply Hsame.
    + exact Hc.
    + intros id' Hne. rewrite (Hpage id' Hne). simpl. unfold update.
      destruct (String.eqb_spec ref id'); [congruence | reflexivity].
    + rewrite Hdoc. simpl. unfold update. rewrite String.eqb_refl. reflexivity.
Qed.

Lemma childNodes_fold_with_child A (mk : A -> Element) xs : forall e,
  childNodes (fold_left (fun e x => with_child (mk x) e) xs e)
  = (childNodes e ++ map mk xs)%list.
Proof.
  induction xs as [| x xs IH]; intro e; simpl.
  - symmetry. apply app_nil_r.
  - rewrite IH. simpl. rewrite <- app_assoc. reflexivity.
Qed.

Lemma bind_normal A B (m : M A) (k : A -> M B) w a :
  fst (m w) = Normal a -> bind m k w = k a (snd (m w)).
Proof.
  unfold bind. destruct (m w) as [c w1]; simpl. intros ->. reflexivity.
Qed.

Lemma bind_throw A B (m : M A) (k : A -> M B) w e :
  fst (m w) = Throw e -> bind m k w = (Throw e, snd (m w)).
Proof.
  unfold bind. destruct (m w) as [c w1]; simpl. intros ->. reflexivity.
Qed.

(** On a well-formed response every group of [updateUI] completes
    normally. *)

Lemma render_baseNetWorth_decoded r :
  writes "baseNetWorth"
    (with_textContent (formatter_format (net_worth (base_run r))))
    (render_baseNetWorth (decoded r)).
Proof.
  intro w. repeat split. intros id' Hne. unfold update.
  cbn -[String.eqb formatter_format]. unfold update.
  destruct (String.eqb_spec "baseNetWorth" id'); [congruence | reflexivity].
Qed.

Lemma render_goalTime_decoded r :
  writes "goalTime"
    (with_textContent
       match base_goal r with
       | Some month => Number_toString month ++ " months"
       | None => "Not achieved"
       end)
    (render_goalTime (decoded r)).
Proof.
  intro w. destruct r as [b [month |] be wo sc sg]; repeat split;
    intros id' Hne; cbn -[String.eqb]; unfold update;
    destruct (String.eqb_spec "goalTime" id'); congruence.
Qed.

Lemma render_scenarioImpact_decoded r :
  let scenarioImpact := (net_worth (scenario_run r) - net_worth (base_run r))%float in
  writes "scenarioImpact"
    (fun e =>
       with_textContent
         ((if (0 <=? scenarioImpact)%float then "+" else "-")
          ++ formatter_format (abs scenarioImpact))
         (with_style_color
            (if (0 <=? scenarioImpact)%float then "#10b981" else "#ef4444") e))
    (render_scenarioImpact (decoded r)).
Proof.
  intros scenarioImpact w. subst scenarioImpact. unfold render_scenarioImpact.
  cbn -[String.eqb formatter_format].
  unfold bind, set, get. cbn -[String.eqb formatter_format].
  destruct (0 <=? _)%float; repeat split;
    try (intros id' Hne; cbn -[String.eqb formatter_format]; unfold update;
         destruct (String.eqb_spec "scenarioImpact" id'); congruence).
Qed.

Lemma writes_set id f : writes id f (set f id).
Proof.
  intro w. repeat split.
  - intros id' Hne. cbn. unfold update.
    destruct (String.eqb_spec id id'); [congruence | reflexivity].
  - cbn. unfold update. rewrite String.eqb_refl. reflexivity.
Qed.

Lemma writes_bind id f g (m k : M unit) :
  writes id f m -> writes id g k -> writes id (fun e => g (f e)) (m ;;; k).
Proof.
  intros Hm Hk w. destruct (Hm w) as (Hc & Hsame & Hpage & Hdoc).
  rewrite (bind_normal _ _ m (fun _ => k) w tt Hc).
  destruct (Hk (snd (m w))) as (Hc' & Hsame' & Hpage' & Hdoc').
  repeat split.
  - exact Hc'.
  - destruct Hsame as [(H1 & H2 & H3) _], Hsame' as [(H4 & H5 & H6) _]. congruence.
  - destruct Hsame as [(H1 & H2 & H3) _], Hsame' as [(H4 & H5 & H6) _]. congruence.
  - destruct Hsame as [(H1 & H2 & H3) _], Hsame' as [(H4 & H5 & H6) _]. congruence.
  - destruct Hsame as [_ H1], Hsame' as [_ H2]. congruence.
  - intros id' Hne. rewrite (Hpage' id' Hne). apply Hpage, Hne.
  - rewrite Hdoc', Hdoc. reflexivity.
Qed.

Lemma writes_ext id f g (m : M unit) :
  (forall e, f e = g e) -> writes id f m -> writes id g m.
Proof.
  intros Hfg Hm w. destruct (Hm w) as (Hc & Hsame & Hpage & Hdoc).
  repeat split; try apply Hsame; try assumption.
  rewrite Hdoc. apply Hfg.
Qed.

Lemma writes_forEach A (mk : A -> Element) id xs :
  writes id (fun e => fold_left (fun e x => with_child (mk x) e) xs e)
    (forEach xs (fun x => appendChild id (mk x))).
Proof.
  intro w. destruct (forEach_appendChild _ mk id xs w) as (Hc & Hsame & Hpage & Hdoc).
  repeat split; try apply Hsame; assumption.
Qed.

Lemma render_list_run (container placeholder class : string) (xs : list string) :
  writes container
    (fun e =>
       match xs with
       | [] => with_child (paragraph "placeholder" placeholder) (with_innerHTML "" e)
       | _ => fold_left (fun e x => with_child (paragraph class x) e) xs
                (with_innerHTML "" e)
       end)
    (set (with_innerHTML "") container ;;;
     if (0 <? List.length xs)%nat then
       forEach xs (fun x =>
         appendChild container
           (with_className class (with_textContent x (createElement "p"))))
     else
       appendChild container
         (with_className "placeholder"
            (with_textContent placeholder (createElement "p")))).
Proof.
  destruct xs as [| x xs].
  - apply (writes_bind container (with_innerHTML "")
             (with_child (paragraph "placeholder" placeholder))).
    + apply writes_set.
    + apply writes_set.
  - apply (writes_bind container (with_innerHTML "")
             (fun e => fold_left (fun e y => with_child (paragraph class y) e)
                         (x :: xs) e)).
    + apply writes_set.
    + apply (writes_forEach _ (paragraph class)).
Qed.

Lemma render_riskAlerts_decoded r :
  let allRisks := (risk_notes (base_run r) ++ risk_notes (scenario_run r))%list in
  writes "riskAlerts"
    (fun e =>
       match allRisks with
       | [] => with_child (paragraph "placeholder" "No critical risks detected")
                 (with_innerHTML "" e)
       | _ => fold_left (fun e x => with_child (paragraph "risk-item" x) e) allRisks
                 (with_innerHTML "" e)
       end)
    (render_riskAlerts (decoded r)).
Proof.
  intros allRisks.
  exact (render_list_run "riskAlerts" "No critical risks detected" "risk-item"
           allRisks).
Qed.

Lemma render_keyInsights_decoded r :
  let allInsights :=
    (insight_notes (base_run r) ++ insight_notes (scenario_run r))%list in
  writes "keyInsights"
    (fun e =>
       match allInsights with
       | [] => with_child (paragraph "placeholder" "Run simulation to see insights")
                 (with_innerHTML "" e)
       | _ => fold_left (fun e x => with_child (paragraph "insight-item" x) e)
                 allInsights (with_innerHTML "" e)
       end)
    (render_keyInsights (decoded r)).
Proof.
  intros allInsights.
  exact (render_list_run "keyInsights" "Run simulation to see insights"
           "insight-item" allInsights).
Qed.

Lemma updateChart_decoded r w :
  updateChart (decoded r) w =
  (Normal tt,
   {| document := document w;
      projectionChart := Some (Chart_count w);
      Chart_instances :=
        (match projectionChart w with
         | Some c => filter (fun i => negb (Nat.eqb (fst i) c)) (Chart_instances w)
         | None => Chart_instances w
         end ++ [(Chart_count w, rendered_config r)])%list;
      Chart_count := S (Chart_count w);
      events :=
        (match projectionChart w with
         | Some c => events w ++ [Chart_destroy c]
         | None => events w
         end ++ [Chart_new (Chart_count w) "projectionChart"])%list |}).
Proof.
  unfold updateChart, bind, get_projectionChart. cbn -[Array_from].
  destruct (projectionChart w); reflexivity.
Qed.

(** The world [updateUI] hands to [updateChart] on a well-formed
    response: the five summary elements are written, each from its own
    former state, and nothing else has changed. *)
Lemma updateUI_decoded r w :
  let scenarioImpact := (net_worth (scenario_run r) - net_worth (base_run r))%float in
  let allRisks := (risk_notes (base_run r) ++ risk_notes (scenario_run r))%list in
  let allInsights :=
    (insight_notes (base_run r) ++ insight_notes (scenario_run r))%list in
  exists w5,
    updateUI (decoded r) w = updateChart (decoded r) w5 /\
    same_but_document w w5 /\
    document w5 "baseNetWorth"
    = with_textContent (formatter_format (net_worth (base_run r)))
        (document w "baseNetWorth") /\
    document w5 "goalTime"
    = with_textContent
        match base_goal r with
        | Some month => Number_toString month ++ " months"
        | None => "Not achieved"
        end (document w "goalTime") /\
    document w5 "scenarioImpact"
    = with_textContent
        ((if (0 <=? scenarioImpact)%float then "+" else "-")
         ++ formatter_format (abs scenarioImpact))
        (with_style_color
           (if (0 <=? scenarioImpact)%float then "#10b981" else "#ef4444")
           (document w "scenarioImpact")) /\
    document w5 "riskAlerts"
    = match allRisks with
      | [] => with_child (paragraph "placeholder" "No critical risks detected")
                (with_innerHTML "" (document w "riskAlerts"))
      | _ => fold_left (fun e x => with_child (paragraph "risk-item" x) e) allRisks
                (with_innerHTML "" (document w "riskAlerts"))
      end /\
    document w5 "keyInsights"
    = match allInsights with
      | [] => with_child (paragraph "placeholder" "Run simulation to see insights")
                (with_innerHTML "" (document w "keyInsights"))
      | _ => fold_left (fun e x => with_child (paragraph "insight-item" x) e)
                allInsights (with_innerHTML "" (document w "keyInsights"))
      end /\
    (forall id, id <> "baseNetWorth" -> id <> "goalTime" -> id <> "scenarioImpact" ->
                id <> "riskAlerts" -> id <> "keyInsights" ->
                document w5 id = document w id).
Proof.
  intros scenarioImpact allRisks allInsights.
  destruct (render_baseNetWorth_decoded r w) as (C1 & S1 & P1 & D1).
  set (w1 := snd (render_baseNetWorth (decoded r) w)) in *.
  destruct (render_goalTime_decoded r w1) as (C2 & S2 & P2 & D2).
  set (w2 := snd (render_goalTime (decoded r) w1)) in *.
  destruct (render_scenarioImpact_decoded r w2) as (C3 & S3 & P3 & D3).
  set (w3 := snd (render_scenarioImpact (decoded r) w2)) in *.
  destruct (render_riskAlerts_decoded r w3) as (C4 & S4 & P4 & D4).
  set (w4 := snd (render_riskAlerts (decoded r) w3)) in *.
  destruct (render_keyInsights_decoded r w4) as (C5 & S5 & P5 & D5).
  set (w5 := snd (render_keyInsights (decoded r) w4)) in *.
  exists w5. split; [| split; [| repeat split]].
  - unfold updateUI.
    rewrite (bind_normal _ _ _ _ w tt C1). fold w1.
    rewrite (bind_normal _ _ _ _ w1 tt C2). fold w2.
    rewrite (bind_normal _ _ _ _ w2 tt C3). fold w3.
    rewrite (bind_normal _ _ _ _ w3 tt C4). fold w4.
    rewrite (bind_normal _ _ _ _ w4 tt C5). reflexivity.
  - repeat (eapply same_but_document_trans; [eassumption |]).
    apply same_but_document_refl.
  - rewrite (P5 "baseNetWorth"), (P4 "baseNetWorth"), (P3 "baseNetWorth"),
      (P2 "baseNetWorth") by discriminate. exact D1.
  - rewrite (P5 "goalTime"), (P4 "goalTime"), (P3 "goalTime") by discriminate.
    rewrite D2, (P1 "goalTime") by discriminate. reflexivity.
  - rewrite (P5 "scenarioImpact"), (P4 "scenarioImpact") by discriminate.
    rewrite D3, (P2 "scenarioImpact"), (P1 "scenarioImpact") by discriminate.
    reflexivity.
  - rewrite (P5 "riskAlerts") by discriminate.
    rewrite D4, (P3 "riskAlerts"), (P2 "riskAlerts"), (P1 "riskAlerts")
      by discriminate.
    reflexivity.
  - rewrite D5, (P4 "keyInsights"), (P3 "keyInsights"), (P2 "keyInsights"),
      (P1 "keyInsights") by discriminate.
    reflexivity.
  - intros id H1 H2 H3 H4 H5.
    rewrite (P5 id H5), (P4 id H4), (P3 id H3), (P2 id H2). apply P1, H1.
Qed.

(** ** Rules for [safe] and [fails] *)

Lemma safe_ret A (a : A) : safe (ret a).
Proof. intro w. left. exists a. reflexivity. Qed.

Lemma safe_throw A message : safe (@throw A (TypeError message)).
Proof. intro w. right. exists message. reflexivity. Qed.

Lemma safe_bind A B (m : M A) (k : A -> M B) :
  safe m -> (forall a, safe (k a)) -> safe (bind m k).
Proof.
  intros Hm Hk w. unfold bind. specialize (Hm w).
  destruct (m w) as [[a | e] w1]; simpl in *.
  - apply Hk.
  - destruct Hm as [[a Ha] | [message Hm]]; [discriminate |].
    right. exists message. congruence.
Qed.

Lemma safe_member A obj name (proj : Run -> A) : safe (member obj name proj).
Proof. destruct obj; simpl; auto using safe_ret, safe_throw. Qed.

Lemma safe_spread A (xs : field (list A)) : safe (spread xs).
Proof. destruct xs; simpl; auto using safe_ret, safe_throw. Qed.

Lemma safe_set change ref : safe (set change ref).
Proof. intro w. left. exists tt. reflexivity. Qed.

Lemma safe_get A (prop : Element -> A) ref : safe (get prop ref).
Proof. intro w. left. eexists. reflexivity. Qed.

Lemma safe_getElementById id : safe (getElementById id).
Proof. apply safe_ret. Qed.

Lemma safe_forEach A (xs : list A) (f : A -> M unit) :
  (forall x, safe (f x)) -> safe (forEach xs f).
Proof.
  intro Hf. induction xs as [| x xs IH]; simpl.
  - apply safe_ret.
  - apply safe_bind; [apply Hf | intros _; exact IH].
Qed.

Create HintDb safe.

#[local] Hint Resolve safe_ret safe_throw safe_member safe_spread safe_set
  safe_get safe_getElementById : safe.

Ltac safe_all :=
  repeat (cbv beta zeta;
    match goal with
    | |- safe (bind _ _) => apply safe_bind; [| intros]
    | |- safe (forEach _ _) => apply safe_forEach; intros
    | |- safe (appendChild _ _) => unfold appendChild
    | |- safe (if ?b then _ else _) => destruct b
    | |- safe _ => solve [auto with safe]
    end).

Lemma fails_bind_l A B (m : M A) (k : A -> M B) : fails m -> fails (bind m k).
Proof.
  intros Hm w. destruct (Hm w) as [message Hc]. exists message.
  rewrite (bind_throw _ _ m k w _ Hc). reflexivity.
Qed.

Lemma fails_bind_r A B (m : M A) (k : A -> M B) :
  safe m -> (forall a, fails (k a)) -> fails (bind m k).
Proof.
  intros Hm Hk w. destruct (Hm w) as [[a Hc] | [message Hc]].
  - rewrite (bind_normal _ _ m k w a Hc). apply Hk.
  - exists message. rewrite (bind_throw _ _ m k w _ Hc). reflexivity.
Qed.

Lemma fails_member A obj name (proj : Run -> A) :
  is_present obj = false -> fails (member obj name proj).
Proof.
  destruct obj; [| | discriminate]; intros _ w; eexists; reflexivity.
Qed.

Lemma safe_render_baseNetWorth data : safe (render_baseNetWorth data).
Proof. unfold render_baseNetWorth. safe_all. Qed.

Lemma safe_render_goalTime data : safe (render_goalTime data).
Proof. unfold render_goalTime. safe_all. Qed.

Lemma safe_render_scenarioImpact data : safe (render_scenarioImpact data).
Proof. unfold render_scenarioImpact. safe_all. Qed.

Lemma safe_render_riskAlerts data : safe (render_riskAlerts data).
Proof. unfold render_riskAlerts. safe_all. Qed.

Lemma safe_render_keyInsights data : safe (render_keyInsights data).
Proof. unfold render_keyInsights. safe_all. Qed.

(** A response that lacks a run makes [updateChart] fail before it
    touches anything. *)
Lemma updateChart_missing_run data w :
  has_all_runs data = false ->
  exists message, updateChart data w = (Throw (TypeError message), w).
Proof.
  unfold has_all_runs, updateChart. intro Hmiss.
  destruct (base data); [eexists; reflexivity | eexists; reflexivity |].
  destruct (best data); [eexists; reflexivity | eexists; reflexivity |].
  destruct (worst data); [eexists; reflexivity | eexists; reflexivity |].
  destruct (scenario data); [eexists; reflexivity | eexists; reflexivity |].
  discriminate.
Qed.

Lemma updateUI_missing_run_fails data :
  has_all_runs data = false -> fails (updateUI data).
Proof.
  intro Hmiss. unfold updateUI.
  destruct (is_present (base data)) eqn:Hbase.
  2:{ apply fails_bind_l. unfold render_baseNetWorth.
      change (fails (base_worth <- member (base data) "final_net_worth" final_net_worth ;;
                     set (with_textContent (formatter_format (ToNumber base_worth)))
                         "baseNetWorth")).
      apply fails_bind_l, fails_member, Hbase. }
  apply fails_bind_r; [apply safe_render_baseNetWorth | intros _].
  apply fails_bind_r; [apply safe_render_goalTime | intros _].
  destruct (is_present (scenario data)) eqn:Hscenario.
  2:{ apply fails_bind_l. unfold render_scenarioImpact.
      apply fails_bind_l, fails_member, Hscenario. }
  apply fails_bind_r; [apply safe_render_scenarioImpact | intros _].
  apply fails_bind_r; [apply safe_render_riskAlerts | intros _].
  apply fails_bind_r; [apply safe_render_keyInsights | intros _].
  intro w. destruct (updateChart_missing_run data w Hmiss) as [message ->].
  exists message. reflexivity.
Qed.




(** ** Successive renders *)

Lemma updateUI_decoded_charts r w :
  let final := snd (updateUI (decoded r) w) in
  fst (updateUI (decoded r) w) = Normal tt /\
  projectionChart final = Some (Chart_count w) /\
  Chart_instances final
  = (match projectionChart w with
     | Some c => filter (fun i => negb (Nat.eqb (fst i) c)) (Chart_instances w)
     | None => Chart_instances w
     end ++ [(Chart_count w, rendered_config r)])%list /\
  Chart_count final = S (Chart_count w) /\
  events final
  = (match projectionChart w with
     | Some c => events w ++ [Chart_destroy c]
     | None => events w
     end ++ [Chart_new (Chart_count w) "projectionChart"])%list.
Proof.
  destruct (updateUI_decoded r w) as (w5 & -> & [(Hpc & Hci & Hcc) Hev] & _).
  rewrite updateChart_decoded. cbn [fst snd projectionChart Chart_instances
    Chart_count events]. rewrite Hpc, Hci, Hcc, Hev. repeat split.
Qed.

Lemma updateUI_decoded_singleton r w :
  chart_singleton w ->
  Chart_instances (snd (updateUI (decoded r) w))
  = [(Chart_count w, rendered_config r)].
Proof.
  intro Hone. destruct (updateUI_decoded_charts r w) as (_ & _ & -> & _).
  unfold chart_singleton in Hone. destruct (projectionChart w) as [c |].
  - destruct Hone as [cfg ->]. cbn. rewrite Nat.eqb_refl. reflexivity.
  - rewrite Hone. reflexivity.
Qed.

Lemma updateUI_decoded_keeps_singleton r w :
  chart_singleton w -> chart_singleton (snd (updateUI (decoded r) w)).
Proof.
  intro Hone. unfold chart_singleton at 1.
  destruct (updateUI_decoded_charts r w) as (_ & -> & _).
  eexists. apply updateUI_decoded_singleton, Hone.
Qed.

Lemma renders_normal rs : forall w, fst (renders rs w) = Normal tt.
Proof.
  induction rs as [| r rs IH]; intro w; simpl.
  - reflexivity.
  - destruct (updateUI_decoded_charts r w) as (Hc & _).
    rewrite (bind_normal _ _ _ _ w tt Hc). apply IH.
Qed.

Lemma renders_singleton rs : forall w,
  chart_singleton w -> chart_singleton (snd (renders rs w)).
Proof.
  induction rs as [| r rs IH]; intros w Hone; simpl.
  - exact Hone.
  - destruct (updateUI_decoded_charts r w) as (Hc & _).
    rewrite (bind_normal _ _ _ _ w tt Hc).
    apply IH, updateUI_decoded_keeps_singleton, Hone.
Qed.

Lemma renders_app rs rs' : forall w,
  renders (rs ++ rs') w = renders rs' (snd (renders rs w)).
Proof.
  induction rs as [| r rs IH]; intro w; simpl.
  - reflexivity.
  - destruct (updateUI_decoded_charts r w) as (Hc & _).
    rewrite !(bind_normal _ _ _ _ w tt Hc). apply IH.
Qed.

Lemma render_last r w :
  renders [r] w = updateUI (decoded r) w.
Proof.
  simpl. unfold bind. destruct (updateUI (decoded r) w) as [[[] | e] w']; reflexivity.
Qed.

Lemma page_load_singleton doc : chart_singleton (page_load doc).
Proof. reflexivity. Qed.

(** ** Further properties of the script *)

(** *** What a run keeps, whatever its outcome *)

Lemma same_document_refl w : same_document w w.
Proof. reflexivity. Qed.

Lemma same_document_trans w1 w2 w3 :
  same_document w1 w2 -> same_document w2 w3 -> same_document w1 w3.
Proof. unfold same_document. congruence. Qed.

Lemma same_page_outside_refl ids w : same_page_outside ids w w.
Proof. intros id _. reflexivity. Qed.

Lemma same_page_outside_trans ids w1 w2 w3 :
  same_page_outside ids w1 w2 -> same_page_outside ids w2 w3 ->
  same_page_outside ids w1 w3.
Proof. intros H1 H2 id Hout. rewrite (H2 id Hout). apply H1, Hout. Qed.

Lemma same_values_refl w : same_values w w.
Proof. intro id. reflexivity. Qed.

Lemma same_values_trans w1 w2 w3 :
  same_values w1 w2 -> same_values w2 w3 -> same_values w1 w3.
Proof. intros H1 H2 id. rewrite (H2 id). apply H1. Qed.

Lemma singleton_kept_refl w : singleton_kept w w.
Proof. intro H. exact H. Qed.

Lemma singleton_kept_trans w1 w2 w3 :
  singleton_kept w1 w2 -> singleton_kept w2 w3 -> singleton_kept w1 w3.
Proof. intros H1 H2 H. apply H2, H1, H. Qed.

Lemma same_document_values w w' : same_document w w' -> same_values w w'.
Proof. intros H id. rewrite H. reflexivity. Qed.

Lemma same_document_outside ids w w' :
  same_document w w' -> same_page_outside ids w w'.
Proof. intros H id _. rewrite H. reflexivity. Qed.

Lemma same_charts_singleton w w' : same_charts w w' -> singleton_kept w w'.
Proof.
  intros (H1 & H2 & H3) Hone. unfold chart_singleton in *.
  rewrite H1, H2. exact Hone.
Qed.

Lemma set_same_page_outside change ref ids :
  In ref ids -> keeps (same_page_outside ids) (set change ref).
Proof.
  intros Hin w id Hout. cbn. unfold update.
  destruct (String.eqb_spec ref id); [subst; contradiction | reflexivity].
Qed.

Lemma set_same_values change ref :
  (forall e, value (change e) = value e) -> keeps same_values (set change ref).
Proof.
  intros Hvalue w id. cbn. unfold update.
  destruct (String.eqb_spec ref id); [subst; apply Hvalue | reflexivity].
Qed.

Lemma set_same_charts change ref : keeps same_charts (set change ref).
Proof. intro w. repeat split. Qed.

Lemma set_singleton_kept change ref : keeps singleton_kept (set change ref).
Proof. intro w. apply same_charts_singleton, set_same_charts. Qed.

Lemma emit_same_document e : keeps same_document (emit e).
Proof. intro w. reflexivity. Qed.

Lemma emit_same_values e : keeps same_values (emit e).
Proof. intros w id. reflexivity. Qed.

Lemma emit_same_page_outside ids e : keeps (same_page_outside ids) (emit e).
Proof. intros w id _. reflexivity. Qed.

Lemma emit_singleton_kept e : keeps singleton_kept (emit e).
Proof. intro w. apply same_charts_singleton. repeat split. Qed.

Lemma new_Chart_same_document ctx cfg : keeps same_document (new_Chart ctx cfg).
Proof. intro w. reflexivity. Qed.

Lemma destroy_same_document c : keeps same_document (destroy c).
Proof. intro w. reflexivity. Qed.

Lemma set_projectionChart_same_document c :
  keeps same_document (set_projectionChart c).
Proof. intro w. reflexivity. Qed.

#[local] Hint Resolve same_document_refl same_document_trans
  same_page_outside_refl same_page_outside_trans same_values_refl
  same_values_trans singleton_kept_refl singleton_kept_trans : keeps.
#[local] Hint Resolve set_singleton_kept emit_same_document emit_same_values
  emit_same_page_outside emit_singleton_kept new_Chart_same_document
  destroy_same_document set_projectionChart_same_document : keeps.
#[local] Hint Extern 1 (keeps (same_page_outside _) (set _ _)) =>
  (apply set_same_page_outside; simpl; auto 10) : keeps.
#[local] Hint Extern 1 (keeps same_values (set _ _)) =>
  (apply set_same_values; reflexivity) : keeps.

(** [updateChart] leaves the document alone. *)
Lemma updateChart_same_document data : keeps same_document (updateChart data).
Proof. unfold updateChart. keeps_all. Qed.

Lemma updateChart_same_values data : keeps same_values (updateChart data).
Proof. intro w. apply same_document_values, updateChart_same_document. Qed.

Lemma updateChart_same_page_outside ids data :
  keeps (same_page_outside ids) (updateChart data).
Proof. intro w. apply same_document_outside, updateChart_same_document. Qed.

(** [updateChart] leaves one chart alive when there was one at most. *)
Lemma updateChart_singleton_kept data : keeps singleton_kept (updateChart data).
Proof.
  intros w Hone.
  destruct (has_all_runs data) eqn:Hruns.
  - unfold has_all_runs in Hruns. unfold updateChart.
    destruct (base data); try discriminate.
    destruct (best data); try discriminate.
    destruct (worst data); try discriminate.
    destruct (scenario data); try discriminate.
    unfold chart_singleton in Hone |- *. unfold bind, get_projectionChart.
    cbn -[Array_from].
    destruct (projectionChart w) as [c |]; cbn -[Array_from].
    + destruct Hone as [cfg ->]. cbn -[Array_from]. rewrite Nat.eqb_refl.
      eexists. reflexivity.
    + rewrite Hone. eexists. reflexivity.
  - destruct (updateChart_missing_run data w Hruns) as [message ->]. exact Hone.
Qed.

#[local] Hint Resolve updateChart_same_values updateChart_same_page_outside
  updateChart_singleton_kept : keeps.

Lemma updateUI_same_values data : keeps same_values (updateUI data).
Proof. unfold_updateUI. keeps_all. Qed.

Lemma updateUI_same_page_outside data :
  keeps (same_page_outside written_ids) (updateUI data).
Proof. unfold_updateUI. keeps_all. Qed.

Lemma updateUI_singleton_kept data : keeps singleton_kept (updateUI data).
Proof. unfold_updateUI. keeps_all. Qed.

#[local] Hint Resolve updateUI_same_values updateUI_same_page_outside
  updateUI_singleton_kept : keeps.

Lemma receive_same_values o : keeps same_values (receive o).
Proof. unfold receive. keeps_all. Qed.

Lemma receive_same_page_outside o :
  keeps (same_page_outside written_ids) (receive o).
Proof. unfold receive. keeps_all. Qed.

Lemma receive_singleton_kept o : keeps singleton_kept (receive o).
Proof. unfold receive. keeps_all. Qed.

(** A relation that every step of [runFullSimulation] keeps is kept by
    the run. *)
Section RunKeeps.

Variable R : World -> World -> Prop.
Hypothesis R_refl : forall w, R w w.
Hypothesis R_trans : forall w1 w2 w3, R w1 w2 -> R w2 w3 -> R w1 w3.
Hypothesis R_disabled : forall b, keeps R (set (with_disabled b) "submitBtn").
Hypothesis R_innerHTML : forall s, keeps R (set (with_innerHTML s) "submitBtn").
Hypothesis R_emit : forall e, keeps R (emit e).
Hypothesis R_receive : forall o, keeps R (receive o).

Lemma in_flight_keeps w : R w (in_flight w).
Proof.
  rewrite in_flight_run. apply R_trans with (busy w).
  - apply (keeps_bind R R_trans _ _ (set (with_disabled true) "submitBtn")
             (fun _ => set (with_innerHTML busy_label) "submitBtn")).
    + apply R_disabled.
    + intros _. apply R_innerHTML.
  - apply (R_emit _ (busy w)).
Qed.

Lemma runFullSimulation_keeps o : keeps R (runFullSimulation o).
Proof.
  intro w. rewrite runFullSimulation_run. apply R_trans with (in_flight w).
  - apply in_flight_keeps.
  - apply (keeps_try_catch_finally R R_trans).
    + apply R_receive.
    + intro e. unfold on_error. apply keeps_bind; [exact R_trans | apply R_emit |].
      intros _. apply R_emit.
    + unfold restore. apply keeps_bind; [exact R_trans | apply R_disabled |].
      intros _. apply R_innerHTML.
Qed.

End RunKeeps.

Lemma runFullSimulation_normal o w : fst (runFullSimulation o w) = Normal tt.
Proof.
  rewrite runFullSimulation_run. unfold try_catch_finally.
  destruct (receive o (in_flight w)) as [[[] | e] w1]; reflexivity.
Qed.

Lemma runFullSimulation_same_values o : keeps same_values (runFullSimulation o).
Proof.
  apply runFullSimulation_keeps; intros; eauto with keeps.
  apply receive_same_values.
Qed.

Lemma runFullSimulation_same_page_outside o :
  keeps (same_page_outside written_ids) (runFullSimulation o).
Proof.
  apply runFullSimulation_keeps; intros; eauto with keeps.
  apply receive_same_page_outside.
Qed.

Lemma runFullSimulation_singleton_kept o :
  keeps singleton_kept (runFullSimulation o).
Proof.
  apply runFullSimulation_keeps; intros; eauto with keeps.
  apply receive_singleton_kept.
Qed.

Lemma same_values_submitted w w' : same_values w w' -> submitted w' = submitted w.
Proof. intro H. unfold submitted. rewrite !H. reflexivity. Qed.

(** *** Sessions *)

Lemma forEach_normal A (xs : list A) (f : A -> M unit) :
  (forall x w, fst (f x w) = Normal tt) -> forall w, fst (forEach xs f w) = Normal tt.
Proof.
  intro Hf. induction xs as [| x xs IH]; intro w; simpl.
  - reflexivity.
  - rewrite (bind_normal _ _ _ _ w tt (Hf x w)). apply IH.
Qed.

Lemma typing_normal fields w : fst (forEach fields type_in w) = Normal tt.
Proof. apply forEach_normal. reflexivity. Qed.

Lemma typing_singleton_kept fields : keeps singleton_kept (forEach fields type_in).
Proof. unfold type_in. keeps_all. Qed.

Lemma typing_same_requests fields : keeps same_requests (forEach fields type_in).
Proof. unfold type_in. keeps_all. Qed.

Lemma submit_listener_run e o w :
  submit_listener e o w = (Normal {| defaultPrevented := true |},
                           exec (runFullSimulation o) w).
Proof.
  unfold submit_listener. cbv zeta.
  rewrite (bind_normal _ _ _ _ w tt (runFullSimulation_normal o w)). reflexivity.
Qed.

(** One step of a session. *)
Lemma session_step s ss w :
  session (s :: ss) w
  = session ss (exec (runFullSimulation (outcome s))
                     (exec (forEach (typed s) type_in) w)).
Proof.
  simpl session.
  rewrite (bind_normal _ _ _ _ w tt (typing_normal (typed s) w)).
  fold (exec (forEach (typed s) type_in) w).
  set (w1 := exec (forEach (typed s) type_in) w).
  rewrite (bind_normal _ _ _ _ w1 {| defaultPrevented := true |})
    by (rewrite submit_listener_run; reflexivity).
  rewrite submit_listener_run. reflexivity.
Qed.

Lemma session_invariant ss : forall w,
  fst (session ss w) = Normal tt /\
  singleton_kept w (exec (session ss) w) /\
  List.length (requests (events (exec (session ss) w)))
  = (List.length (requests (events w)) + List.length ss)%nat.
Proof.
  induction ss as [| s ss IH]; intro w.
  - repeat split; [apply singleton_kept_refl | unfold exec; simpl; lia].
  - unfold exec. rewrite session_step.
    set (w1 := exec (forEach (typed s) type_in) w).
    set (w2 := exec (runFullSimulation (outcome s)) w1).
    destruct (IH w2) as (Hc & Hone & Hreq). unfold exec in Hone, Hreq.
    split; [exact Hc |]. split.
    + apply singleton_kept_trans with w2; [| exact Hone].
      apply singleton_kept_trans with w1.
      * apply typing_singleton_kept.
      * apply runFullSimulation_singleton_kept.
    + assert (Htyped : requests (events w1) = requests (events w))
        by apply (typing_same_requests (typed s) w).
      rewrite Hreq. subst w2. rewrite runFullSimulation_requests.
      rewrite length_app, Htyped. simpl. lia.
Qed.

(** *** When a render completes *)

Lemma completes_ret A (a : A) : completes (ret a).
Proof. intro w. exists a. reflexivity. Qed.

Lemma completes_bind A B (m : M A) (k : A -> M B) :
  completes m -> (forall a, completes (k a)) -> completes (bind m k).
Proof.
  intros Hm Hk w. destruct (Hm w) as [a Hc].
  rewrite (bind_normal _ _ m k w a Hc). apply Hk.
Qed.

Lemma completes_set change ref : completes (set change ref).
Proof. intro w. exists tt. reflexivity. Qed.

Lemma completes_get A (prop : Element -> A) ref : completes (get prop ref).
Proof. intro w. eexists. reflexivity. Qed.

Lemma completes_forEach A (xs : list A) (f : A -> M unit) :
  (forall x, completes (f x)) -> completes (forEach xs f).
Proof.
  intro Hf. induction xs as [| x xs IH]; simpl.
  - apply completes_ret.
  - apply completes_bind; [apply Hf | intros _; exact IH].
Qed.

Lemma completes_get_projectionChart : completes get_projectionChart.
Proof. intro w. eexists. reflexivity. Qed.

Lemma completes_set_projectionChart c : completes (set_projectionChart c).
Proof. intro w. exists tt. reflexivity. Qed.

Lemma completes_new_Chart ctx cfg : completes (new_Chart ctx cfg).
Proof. intro w. eexists. reflexivity. Qed.

Lemma completes_destroy c : completes (destroy c).
Proof. intro w. exists tt. reflexivity. Qed.

Create HintDb completes.

#[local] Hint Resolve completes_ret completes_set completes_get
  completes_get_projectionChart completes_set_projectionChart
  completes_new_Chart completes_destroy : completes.

(** Takes a computation apart as [keeps_all] does; a property that is
    there is read without more ado. *)
Ltac completes_all :=
  repeat (cbv beta zeta;
    cbn [base best worst scenario final_net_worth history risks insights
         goal_1_month];
    match goal with
    | |- completes (bind (getElementById ?id) ?k) => change (completes (k id))
    | |- completes (bind (member (Present ?r) _ ?p) ?k) =>
        change (completes (k (p r)))
    | |- completes (bind (spread (Present ?l)) ?k) => change (completes (k l))
    | |- completes (bind _ _) => apply completes_bind; [| intros]
    | |- completes (forEach _ _) => apply completes_forEach; intros
    | |- completes (appendChild _ _) => unfold appendChild
    | |- completes (if ?b then _ else _) => destruct b
    | |- completes (match ?x with _ => _ end) => destruct x
    | |- completes _ => solve [auto with completes]
    end).

Lemma fails_spread A (xs : field (list A)) :
  is_present xs = false -> fails (spread xs).
Proof.
  destruct xs; [| | discriminate]; intros _ w; eexists; reflexivity.
Qed.

#[local] Hint Resolve safe_render_baseNetWorth safe_render_goalTime
  safe_render_scenarioImpact safe_render_riskAlerts safe_render_keyInsights : safe.

(** Finds the first step of a computation that throws. *)
Ltac fails_all :=
  cbv beta zeta;
  cbn [base best worst scenario final_net_worth history risks insights
       goal_1_month];
  lazymatch goal with
  | |- fails (bind (getElementById ?id) ?k) => change (fails (k id)); fails_all
  | |- fails (bind (member (Present ?r) _ ?p) ?k) =>
      change (fails (k (p r))); fails_all
  | |- fails (bind (spread (Present ?l)) ?k) => change (fails (k l)); fails_all
  | |- fails (bind _ _) =>
      first [ apply fails_bind_l; fails_all
            | apply fails_bind_r; [solve [safe_all] | intros; fails_all] ]
  | |- fails (spread _) => apply fails_spread; reflexivity
  | |- fails (member _ _ _) => apply fails_member; reflexivity
  end.

(** X4: a render completes exactly when the response holds its four
    runs and the base and the scenario run hold their lists of risks and
    of insights; every other decoded response makes it throw a
    [TypeError]. Nothing else is required: a net worth, a history or a
    goal month that is missing or [null] raises no error. *)
Theorem render_completes_iff_renderable (data : Data) (w : World) :
  if renderable data then fst (updateUI data w) = Normal tt
  else exists message, fst (updateUI data w) = Throw (TypeError message).
Proof.
  destruct (has_all_runs data) eqn:Hruns.
  2:{ unfold renderable. rewrite Hruns. apply updateUI_missing_run_fails, Hruns. }
  destruct data as [[| | b] [| | be] [| | wo] [| | s]]; try discriminate Hruns.
  clear Hruns.
  destruct b as [bw bh br bi bg], s as [sw sh sr si sg].
  destruct br as [| | br], sr as [| | sr], bi as [| | bi], si as [| | si];
    lazymatch goal with
    | |- if ?c then _ else _ =>
        let v := eval cbv in c in change c with v; cbv iota
    end;
    lazymatch goal with
    | |- fst (updateUI ?d w) = Normal tt =>
        assert (Hc : completes (updateUI d))
          by (unfold_updateUI; unfold updateChart; completes_all);
        destruct (Hc w) as [[] Hn]; exact Hn
    | |- exists message, fst (updateUI ?d w) = Throw (TypeError message) =>
        assert (Hf : fails (updateUI d))
          by (unfold_updateUI; fails_all);
        exact (Hf w)
    end.
Qed.

(** *** The page after a render *)

Lemma updateUI_document r w id :
  document (exec (updateUI (decoded r)) w) id = rendered r id (document w id).
Proof.
  unfold exec.
  destruct (updateUI_decoded r w)
    as (w5 & -> & _ & H1 & H2 & H3 & H4 & H5 & Hother).
  rewrite updateChart_decoded. cbn [snd document]. unfold rendered.
  destruct (String.eqb_spec id "baseNetWorth") as [-> | N1]; [exact H1 |].
  destruct (String.eqb_spec id "goalTime") as [-> | N2]; [exact H2 |].
  destruct (String.eqb_spec id "scenarioImpact") as [-> | N3]; [exact H3 |].
  destruct (String.eqb_spec id "riskAlerts") as [-> | N4]; [exact H4 |].
  destruct (String.eqb_spec id "keyInsights") as [-> | N5]; [exact H5 |].
  apply Hother; assumption.
Qed.

Lemma with_innerHTML_fold A (mk : A -> Element) s xs : forall e,
  with_innerHTML s (fold_left (fun e x => with_child (mk x) e) xs e)
  = with_innerHTML s e.
Proof.
  induction xs as [| x xs IH]; intro e; simpl.
  - reflexivity.
  - rewrite IH. reflexivity.
Qed.

Lemma with_innerHTML_list A (mk : A -> Element) s p (xs : list A) e :
  with_innerHTML s
    match xs with
    | [] => with_child p (with_innerHTML s e)
    | _ => fold_left (fun e x => with_child (mk x) e) xs (with_innerHTML s e)
    end
  = with_innerHTML s e.
Proof.
  destruct xs as [| x xs]; [reflexivity |]. rewrite with_innerHTML_fold. reflexivity.
Qed.

(** What a render writes does not depend on what an earlier render
    wrote. *)
Lemma rendered_absorbs r1 r2 id e :
  rendered r2 id (rendered r1 id e) = rendered r2 id e.
Proof.
  unfold rendered. cbv zeta.
  destruct (String.eqb id "baseNetWorth"); [reflexivity |].
  destruct (String.eqb id "goalTime"); [reflexivity |].
  destruct (String.eqb id "scenarioImpact"); [reflexivity |].
  destruct (String.eqb id "riskAlerts").
  { rewrite with_innerHTML_list. reflexivity. }
  destruct (String.eqb id "keyInsights").
  { rewrite with_innerHTML_list. reflexivity. }
  reflexivity.
Qed.

Lemma renders_document rs r : forall w id,
  document (exec (renders (rs ++ [r])) w) id = rendered r id (document w id).
Proof.
  induction rs as [| r1 rs IH]; intros w id.
  - change (([] ++ [r])%list) with [r]. unfold exec. rewrite render_last.
    apply updateUI_document.
  - unfold exec. simpl renders.
    destruct (updateUI_decoded_charts r1 w) as (Hc & _).
    rewrite (bind_normal _ _ _ _ w tt Hc).
    fold (exec (updateUI (decoded r1)) w).
    fold (exec (renders (rs ++ [r])) (exec (updateUI (decoded r1)) w)).
    rewrite IH, updateUI_document. apply rendered_absorbs.
Qed.

(** *** A result that lacks a list *)


(** *** The events of a run *)

Lemma logged_app es es' : logged (es ++ es') = (logged es ++ logged es')%list.
Proof.
  induction es as [| [] es IH]; simpl; try rewrite IH; reflexivity.
Qed.

(** The run whose [try] block throws [error] at once. *)
Lemma runFullSimulation_throw o error w :
  receive o = throw error ->
  events (exec (runFullSimulation o) w)
  = (events w ++
     [ fetch "/simulate"
         {| method := "POST";
            headers := [("Content-Type", "application/json")];
            body := JSON_stringify (submitted w) |};
       console_error "Simulation error:" error;
       failure_alert ])%list.
Proof.
  intro Hthrow. unfold exec. rewrite runFullSimulation_run, Hthrow.
  pose proof (in_flight_events w) as Hev.
  generalize dependent (in_flight w). intros W Hev.
  cbn. rewrite Hev. repeat rewrite <- app_assoc. reflexivity.
Qed.

Lemma runFullSimulation_logged o error w :
  receive o = throw error ->
  logged (events (exec (runFullSimulation o) w)) = (logged (events w) ++ [error])%list.
Proof.
  intro Hthrow. rewrite (runFullSimulation_throw o error w Hthrow).
  rewrite logged_app. reflexivity.
Qed.

(** [updateChart] on a response that holds its four runs. *)
Lemma updateChart_present data b be wo sc w :
  base data = Present b -> best data = Present be ->
  worst data = Present wo -> scenario data = Present sc ->
  updateChart data w =
  (Normal tt,
   {| document := document w;
      projectionChart := Some (Chart_count w);
      Chart_instances :=
        (match projectionChart w with
         | Some c => filter (fun i => negb (Nat.eqb (fst i) c)) (Chart_instances w)
         | None => Chart_instances w
         end ++
         [(Chart_count w,
           config (chartData (Array_from 120 (fun i => (i + 1)%Z))
                     (history b) (history be) (history wo) (history sc)))])%list;
      Chart_count := S (Chart_count w);
      events :=
        (match projectionChart w with
         | Some c => events w ++ [Chart_destroy c]
         | None => events w
         end ++ [Chart_new (Chart_count w) "projectionChart"])%list |}).
Proof.
  intros Hb Hbe Hwo Hsc. unfold updateChart. rewrite Hb, Hbe, Hwo, Hsc.
  unfold bind, get_projectionChart. cbn -[Array_from].
  destruct (projectionChart w); reflexivity.
Qed.

(** *** Further properties *)

(** X1: in any session on a freshly loaded page (the form edited and
    submitted any number of times, each exchange settling in any way:
    rejected, refused, unparsable, parsed into any object at all) one
    chart at most is alive after the last run, and it is the one
    [projectionChart] refers to. *)
Theorem session_keeps_one_chart (doc : Document) (ss : list Submission) :
  chart_singleton (exec (session ss) (page_load doc)).
Proof.
  destruct (session_invariant ss (page_load doc)) as (_ & Hone & _).
  apply Hone, page_load_singleton.
Qed.

(** X2: the listener of the form prevents the default action of the
    submit event and completes normally however the exchange settles; in a
    session every submission completes and makes exactly one request:
    none is retried and none is held back. *)
Theorem every_submission_is_handled (doc : Document) (ss : list Submission)
    (e : SubmitEvent) (o : FetchOutcome) (w : World) :
  fst (submit_listener e o w) = Normal {| defaultPrevented := true |} /\
  exec (submit_listener e o) w = exec (runFullSimulation o) w /\
  fst (session ss (page_load doc)) = Normal tt /\
  List.length (requests (events (exec (session ss) (page_load doc))))
  = List.length ss.
Proof.
  unfold exec at 1. rewrite submit_listener_run.
  destruct (session_invariant ss (page_load doc)) as (Hc & _ & Hreq).
  repeat split; assumption.
Qed.

(** X3: a run, whatever its outcome, assigns to no element but the
    submission control and the five output elements, and it changes the
    value of no element: the form holds what the user entered, so a
    second submission sends the same request again. *)
Theorem form_is_never_written (w : World) (o o' : FetchOutcome) :
  let final := exec (runFullSimulation o) w in
  same_page_outside written_ids w final /\
  same_values w final /\
  submitted final = submitted w /\
  requests (events (exec (runFullSimulation o') final))
  = (requests (events w)
     ++ [simulate_request (submitted w); simulate_request (submitted w)])%list.
Proof.
  intro final. subst final.
  pose proof (runFullSimulation_same_values o w) as Hvalues.
  fold (exec (runFullSimulation o) w) in Hvalues.
  split; [apply runFullSimulation_same_page_outside |].
  split; [exact Hvalues |].
  split; [apply same_values_submitted, Hvalues |].
  rewrite !runFullSimulation_requests.
  rewrite (same_values_submitted _ _ Hvalues), <- app_assoc. reflexivity.
Qed.

(** X5: after any number of renders the page is the one the last
    render alone would have left: every element, the children of the two
    lists included, is what the last result makes of the element as it
    was before the first render. Nothing of an earlier result stays, and
    rendering a result twice is rendering it once. *)
Theorem last_render_wins (rs : list ProjectionResult) (r : ProjectionResult)
    (w : World) (id : string) :
  document (exec (renders (rs ++ [r])) w) id
  = document (exec (updateUI (decoded r)) w) id.
Proof. rewrite renders_document, updateUI_document. reflexivity. Qed.


(** X7: a run whose exchange succeeds with a well-formed response
    completes without logging and without notification: after its one
    request it destroys the chart there was, if there was one, and
    constructs the new one, and that chart shows the result. *)
Theorem successful_run_is_silent (w : World) (status : Z) (r : ProjectionResult) :
  ok status = true ->
  let final := exec (runFullSimulation (Response status (Parsed (decoded r)))) w in
  events final
  = (events w ++
     [ fetch "/simulate"
         {| method := "POST";
            headers := [("Content-Type", "application/json")];
            body := JSON_stringify (submitted w) |} ] ++
     match projectionChart w with
     | Some c => [Chart_destroy c]
     | None => []
     end ++
     [Chart_new (Chart_count w) "projectionChart"])%list /\
  logged (events final) = logged (events w) /\
  projectionChart final = Some (Chart_count w) /\
  In (Chart_count w, rendered_config r) (Chart_instances final).
Proof.
  intros Hok final.
  assert (Hevents :
    events final
    = (events w ++
       [ fetch "/simulate"
           {| method := "POST";
              headers := [("Content-Type", "application/json")];
              body := JSON_stringify (submitted w) |} ] ++
       match projectionChart w with
       | Some c => [Chart_destroy c]
       | None => []
       end ++
       [Chart_new (Chart_count w) "projectionChart"])%list /\
    projectionChart final = Some (Chart_count w) /\
    In (Chart_count w, rendered_config r) (Chart_instances final)).
  { subst final. unfold exec. rewrite runFullSimulation_run.
    assert (Hreceive : receive (Response status (Parsed (decoded r)))
                       = updateUI (decoded r)).
    { unfold receive. rewrite Hok. reflexivity. }
    rewrite Hreceive.
    pose proof (in_flight_events w) as Hev.
    destruct (in_flight_same_charts w) as (Hpc & Hci & Hcc).
    generalize dependent (in_flight w). intros W Hev Hpc Hci Hcc.
    destruct (updateUI_decoded_charts r W) as (Hc & Hpc' & Hci' & Hcc' & Hev').
    unfold try_catch_finally.
    destruct (updateUI (decoded r) W) as [c W1].
    cbn [fst snd] in Hc, Hpc', Hci', Hcc', Hev'. subst c. cbn.
    rewrite Hev', Hpc', Hci', Hpc, Hcc, Hev.
    split; [| split; [reflexivity | apply in_or_app; right; left; reflexivity]].
    destruct (projectionChart w); repeat rewrite <- app_assoc; reflexivity. }
  destruct Hevents as (Hevents & Hchart & Hlive).
  split; [exact Hevents |]. split; [| split; assumption].
  rewrite Hevents, !logged_app.
  destruct (projectionChart w); simpl; apply app_nil_r.
Qed.

(** X8: the error that is logged is the cause of the failure as it
    was raised: the reason of the rejection, the reason the body did not
    parse, or, for a status that is no success, an error that names the
    status and is the same whatever the body holds, a well-formed result
    included. *)
Theorem failure_logs_its_cause (w : World) (reason : JsError) (status : Z)
    (body : Body) :
  let run o := events (exec (runFullSimulation o) w) in
  logged (run (Rejected reason)) = (logged (events w) ++ [reason])%list /\
  if ok status then
    logged (run (Response status (Unparsable reason)))
    = (logged (events w) ++ [reason])%list
  else
    logged (run (Response status body))
    = (logged (events w)
       ++ [Error ("HTTP error! status: " ++ Number_toString (Number_of_Z status))])%list.
Proof.
  intro run. subst run. cbv beta. split.
  - apply runFullSimulation_logged. reflexivity.
  - destruct (ok status) eqn:Hok; apply runFullSimulation_logged;
      unfold receive; rewrite Hok; reflexivity.
Qed.

(** X9: the impact is shown with one sign, the [+] or [-] the script
    puts in front: the number handed to the formatter is an absolute
    value, whose sign bit is clear, so the formatter adds no sign of its
    own. *)
Theorem impact_magnitude_is_unsigned (r : ProjectionResult) (w : World) :
  let scenarioImpact := (net_worth (scenario_run r) - net_worth (base_run r))%float in
  let shown := document (exec (updateUI (decoded r)) w) "scenarioImpact" in
  exists magnitude,
    textContent shown
    = (if (0 <=? scenarioImpact)%float then "+" else "-") ++ formatter_format magnitude /\
    magnitude = abs scenarioImpact /\
    sign_of magnitude <> Some true.
Proof.
  intros scenarioImpact shown. exists (abs scenarioImpact).
  split; [| split; [reflexivity | apply abs_sign]].
  subst shown. rewrite updateUI_document. reflexivity.
Qed.

(** X10: the two rates of the request keep what the form held: each
    monthly rate is [NaN] exactly when its field did not parse to a
    number, and otherwise has the sign of the parsed input, also when it
    is a zero or an infinity. *)
Theorem rates_keep_sign (w : World) :
  let input id := value (document w id) in
  exists growth inflation,
    property "investment_growth_rate" (submitted w) = Some (JsNumber growth) /\
    property "inflation_rate" (submitted w) = Some (JsNumber inflation) /\
    sign_of growth = sign_of (parseFloat (input "investmentGrowth")) /\
    sign_of inflation = sign_of (parseFloat (input "inflationRate")).
Proof.
  intro input. eexists. eexists.
  split; [reflexivity |]. split; [reflexivity |].
  split; apply monthly_rate_sign.
Qed.

(** X11: [updateChart] needs the four runs and nothing of them: it
    takes the [history] of each run as it is, also when it is missing, and
    constructs the chart all the same, with the months 1 to 120 as its
    axis; it leaves the document alone. *)
Theorem chart_takes_histories_as_they_are (data : Data) (w : World)
    (b be wo sc : Run) :
  base data = Present b ->
  best data = Present be ->
  worst data = Present wo ->
  scenario data = Present sc ->
  let final := exec (updateChart data) w in
  fst (updateChart data w) = Normal tt /\
  document final = document w /\
  projectionChart final = Some (Chart_count w) /\
  Chart_count final = S (Chart_count w) /\
  exists others cfg,
    Chart_instances final = (others ++ [(Chart_count w, cfg)])%list /\
    visible_series cfg = [history b; history be; history wo; history sc] /\
    labels (config_data cfg) = map Z.of_nat (seq 1 120).
Proof.
  intros Hb Hbe Hwo Hsc final. subst final. unfold exec.
  rewrite (updateChart_present data b be wo sc w Hb Hbe Hwo Hsc).
  cbn [fst snd document projectionChart Chart_count Chart_instances].
  repeat split. eexists. eexists. split; [reflexivity |]. split; reflexivity.
Qed.

(** *** The impact of a response that holds its base and scenario run *)

Lemma render_scenarioImpact_present data b s :
  base data = Present b -> scenario data = Present s ->
  let scenarioImpact :=
    (ToNumber (final_net_worth s) - ToNumber (final_net_worth b))%float in
  writes "scenarioImpact"
    (fun e =>
       with_textContent
         ((if (0 <=? scenarioImpact)%float then "+" else "-")
          ++ formatter_format (abs scenarioImpact))
         (with_style_color
            (if (0 <=? scenarioImpact)%float then "#10b981" else "#ef4444") e))
    (render_scenarioImpact data).
Proof.
  intros Hb Hs scenarioImpact w. subst scenarioImpact.
  unfold render_scenarioImpact. rewrite Hb, Hs.
  cbn -[String.eqb formatter_format ToNumber].
  unfold bind, set, get. cbn -[String.eqb formatter_format ToNumber].
  destruct (0 <=? _)%float; repeat split;
    try (intros id' Hne; cbn -[String.eqb formatter_format ToNumber]; unfold update;
         destruct (String.eqb_spec "scenarioImpact" id'); congruence).
Qed.

Lemma render_baseNetWorth_completes data b :
  base data = Present b -> completes (render_baseNetWorth data).
Proof. intro Hb. unfold render_baseNetWorth. rewrite Hb. completes_all. Qed.

Lemma render_goalTime_completes data b :
  base data = Present b -> completes (render_goalTime data).
Proof. intro Hb. unfold render_goalTime. rewrite Hb. completes_all. Qed.

Lemma completes_unit (m : M unit) w : completes m -> fst (m w) = Normal tt.
Proof. intro Hm. destruct (Hm w) as [[] Hc]. exact Hc. Qed.

Lemma updateUI_writes_scenarioImpact data b s w :
  base data = Present b -> scenario data = Present s ->
  let scenarioImpact :=
    (ToNumber (final_net_worth s) - ToNumber (final_net_worth b))%float in
  document (snd (updateUI data w)) "scenarioImpact"
  = with_textContent
      ((if (0 <=? scenarioImpact)%float then "+" else "-")
       ++ formatter_format (abs scenarioImpact))
      (with_style_color
         (if (0 <=? scenarioImpact)%float then "#10b981" else "#ef4444")
         (document w "scenarioImpact")).
Proof.
  intros Hb Hs scenarioImpact. unfold updateUI.
  rewrite (bind_normal _ _ _ _ w tt)
    by apply completes_unit, (render_baseNetWorth_completes data b Hb).
  assert (E1 : keeps (same_element "scenarioImpact") (render_baseNetWorth data))
    by (unfold render_baseNetWorth; keeps_all).
  specialize (E1 w). set (w1 := snd (render_baseNetWorth data w)) in *.
  rewrite (bind_normal _ _ _ _ w1 tt)
    by apply completes_unit, (render_goalTime_completes data b Hb).
  assert (E2 : keeps (same_element "scenarioImpact") (render_goalTime data))
    by (unfold render_goalTime; keeps_all).
  specialize (E2 w1). set (w2 := snd (render_goalTime data w1)) in *.
  destruct (render_scenarioImpact_present data b s Hb Hs w2) as (C3 & _ & _ & D3).
  rewrite (bind_normal _ _ _ _ w2 tt C3).
  set (w3 := snd (render_scenarioImpact data w2)) in *.
  match goal with
  | |- document (snd (?rest w3)) _ = _ =>
      assert (Hrest : keeps (same_element "scenarioImpact") rest)
  end.
  { unfold render_riskAlerts, render_keyInsights, updateChart. keeps_all. }
  rewrite Hrest, D3, E2, E1. reflexivity.
Qed.

Lemma sub_nan_l (y : float) : (nan - y)%float = nan.
Proof.
  apply Prim2SF_inj. rewrite sub_spec. change (Prim2SF nan) with S754_nan.
  reflexivity.
Qed.

Lemma sub_nan_r (x : float) : (x - nan)%float = nan.
Proof.
  apply Prim2SF_inj. rewrite sub_spec. change (Prim2SF nan) with S754_nan.
  unfold SF64sub, SFsub. destruct (Prim2SF x); reflexivity.
Qed.

(** *** A result that lacks a list of insights *)




(** X12: the chart and the summary format money alike: the tooltip
    of the chart a render constructs shows the label of the dataset, a
    colon and the value as the axis shows it, the axis shows a value as
    the formatter of the page renders it, and the base net worth of the
    summary is shown as the axis would show it. *)
Theorem chart_and_summary_format_alike (r : ProjectionResult) (w : World)
    (dataset_label : string) (y : float) :
  let final := exec (updateUI (decoded r)) w in
  exists cfg,
    In (Chart_count w, cfg) (Chart_instances final) /\
    projectionChart final = Some (Chart_count w) /\
    tooltip_callbacks_label cfg dataset_label y
    = dataset_label ++ ": " ++ y_ticks_callback cfg y /\
    y_ticks_callback cfg y = formatter_format y /\
    textContent (document final "baseNetWorth")
    = y_ticks_callback cfg (net_worth (base_run r)).
Proof.
  intro final. exists (rendered_config r).
  destruct (updateUI_decoded_charts r w) as (_ & Hpc & Hci & _).
  fold (exec (updateUI (decoded r)) w) in Hpc, Hci. fold final in Hpc, Hci.
  split; [rewrite Hci; apply in_or_app; right; left; reflexivity |].
  split; [exact Hpc |]. split; [reflexivity |]. split; [reflexivity |].
  subst final. rewrite updateUI_document. reflexivity.
Qed.

(** X13: when the base or the scenario run holds no final net worth,
    the difference is not a number; the impact is then shown as a loss:
    [-] followed by the formatted [NaN], in the bad colour, and the
    statements that show the impact raise no error. *)
Theorem missing_net_worth_is_shown_as_loss (data : Data) (w : World) (b s : Run) :
  base data = Present b ->
  scenario data = Present s ->
  final_net_worth b = Absent \/ final_net_worth s = Absent ->
  let shown := document (exec (updateUI data) w) "scenarioImpact" in
  textContent shown = "-" ++ formatter_format nan /\
  style_color shown = "#ef4444" /\
  (forall w', fst (render_scenarioImpact data w') = Normal tt).
Proof.
  intros Hb Hs Hmiss shown. subst shown. unfold exec.
  rewrite (updateUI_writes_scenarioImpact data b s w Hb Hs).
  assert (Hnan : (ToNumber (final_net_worth s) - ToNumber (final_net_worth b))%float
                 = nan).
  { destruct Hmiss as [-> | ->]; [apply sub_nan_r | apply sub_nan_l]. }
  rewrite Hnan. split; [reflexivity |]. split; [reflexivity |].
  intro w'. apply (render_scenarioImpact_present data b s Hb Hs w').
Qed.


(** *** What a render has written when it fails *)









(** ** The specified properties *)

(** C1: the request object built from the form carries, under the keys
    of the service contract and in that order, the parsed amounts and the
    parsed savings rate unchanged, the two selections as they are, and
    the growth and inflation inputs each divided by 100 and then by 12;
    its serialization is the body of the one request of the run. *)
Theorem payload_rates_and_fields (w : World) (o : FetchOutcome) :
  let input id := value (document w id) in
  let request := submitted w in
  fst (prepare w) = Normal ("submitBtn", request) /\
  keys request =
    ["monthly_income"; "monthly_expenses"; "current_savings";
     "current_investments"; "goal_cost"; "investment_growth_rate";
     "inflation_rate"; "monthly_savings_rate"; "risk_tolerance"; "scenario"] /\
  property "investment_growth_rate" request
    = Some (JsNumber ((parseFloat (input "investmentGrowth") / 100) / 12)%float) /\
  property "inflation_rate" request
    = Some (JsNumber ((parseFloat (input "inflationRate") / 100) / 12)%float) /\
  property "monthly_savings_rate" request
    = Some (JsNumber (parseFloat (input "savingsRate"))) /\
  property "monthly_income" request
    = Some (JsNumber (parseFloat (input "monthlyIncome"))) /\
  property "monthly_expenses" request
    = Some (JsNumber (parseFloat (input "monthlyExpenses"))) /\
  property "current_savings" request
    = Some (JsNumber (parseFloat (input "currentSavings"))) /\
  property "current_investments" request
    = Some (JsNumber (parseFloat (input "currentInvestments"))) /\
  property "goal_cost" request
    = Some (JsNumber (parseFloat (input "goalCost"))) /\
  property "risk_tolerance" request = Some (JsString (input "riskTolerance")) /\
  property "scenario" request = Some (JsString (input "scenario")) /\
  requests (events (exec (runFullSimulation o) w))
    = (requests (events w) ++ [simulate_request request])%list.
Proof.
  intros input request. rewrite prepare_run.
  repeat (split; [reflexivity |]).
  apply runFullSimulation_requests.
Qed.

(** C2: when the exchange fails (the request is rejected at the network
    level, the status is no success, or the body does not parse), the run
    makes its one request, logs the error that caused the failure (the
    reason of the rejection, the reason the body did not parse, or an
    error that names the status), shows one blocking notification and
    nothing else: no second request, no chart created or destroyed, and
    no element of the page other than the submission control is
    changed. *)
Theorem failure_is_notified_once (w : World) (o : FetchOutcome) :
  is_failure o = true ->
  let final := exec (runFullSimulation o) w in
  exists error,
    match o with
    | Rejected reason => error = reason
    | Response status body =>
        if ok status then
          match body with
          | Unparsable reason => error = reason
          | Parsed _ => False
          end
        else
          error = Error ("HTTP error! status: " ++ Number_toString (Number_of_Z status))
    end /\
    fst (runFullSimulation o w) = Normal tt /\
    events final
    = (events w ++
       [ fetch "/simulate"
           {| method := "POST";
              headers := [("Content-Type", "application/json")];
              body := JSON_stringify (submitted w) |};
         console_error "Simulation error:" error;
         alert "Simulation failed. Please check console for details." ])%list /\
    logged (events final) = (logged (events w) ++ [error])%list /\
    same_charts w final /\
    same_page_but "submitBtn" w final.
Proof.
  intros Hfail final. subst final. unfold exec. rewrite runFullSimulation_run.
  assert (Hthrow : exists error,
            receive o = throw error /\
            match o with
            | Rejected reason => error = reason
            | Response status body =>
                if ok status then
                  match body with
                  | Unparsable reason => error = reason
                  | Parsed _ => False
                  end
                else
                  error = Error ("HTTP error! status: "
                                 ++ Number_toString (Number_of_Z status))
            end).
  { destruct o as [reason | status [reason | data]]; simpl in Hfail |- *.
    - eexists. split; reflexivity.
    - destruct (ok status); simpl; eexists; split; reflexivity.
    - destruct (ok status); simpl in *; [discriminate | eexists; split; reflexivity]. }
  destruct Hthrow as (error & -> & Hcause). exists error.
  split; [exact Hcause |].
  pose proof (in_flight_events w) as Hev.
  destruct (in_flight_same_charts w) as (Hpc & Hci & Hcc).
  pose proof (in_flight_same_page w) as Hpage.
  generalize dependent (in_flight w). intros W Hev Hpc Hci Hcc Hpage.
  cbn -[String.eqb]. rewrite Hev.
  assert (Hevents :
    (((events w ++
       [fetch "/simulate"
          {| method := "POST";
             headers := [("Content-Type", "application/json")];
             body := JSON_stringify (submitted w) |}]) ++
      [console_error "Simulation error:" error]) ++
     [alert "Simulation failed. Please check console for details."])%list
    = (events w ++
       [ fetch "/simulate"
           {| method := "POST";
              headers := [("Content-Type", "application/json")];
              body := JSON_stringify (submitted w) |};
         console_error "Simulation error:" error;
         alert "Simulation failed. Please check console for details." ])%list).
  { repeat rewrite <- app_assoc. reflexivity. }
  rewrite Hevents.
  repeat split; try assumption.
  - generalize (events w). intro es.
    induction es as [| [] es IH]; simpl; try rewrite IH; reflexivity.
  - unfold same_page_but. intros id' Hne. cbn -[String.eqb]. unfold update.
    destruct (String.eqb_spec "submitBtn" id'); [congruence | apply Hpage, Hne].
Qed.


(** C4: after a render the risk list holds one entry per risk of the
    base run followed by one per risk of the scenario run, in that order
    and with nothing left out, merged or added, and the insight list
    likewise; a list that would be empty holds the one placeholder entry
    instead. *)
Theorem lists_are_concatenations (r : ProjectionResult) (w : World) :
  let final := exec (updateUI (decoded r)) w in
  let allRisks := (risk_notes (base_run r) ++ risk_notes (scenario_run r))%list in
  let allInsights :=
    (insight_notes (base_run r) ++ insight_notes (scenario_run r))%list in
  childNodes (document final "riskAlerts")
  = match allRisks with
    | [] => [paragraph "placeholder" "No critical risks detected"]
    | _ => map (paragraph "risk-item") allRisks
    end /\
  childNodes (document final "keyInsights")
  = match allInsights with
    | [] => [paragraph "placeholder" "Run simulation to see insights"]
    | _ => map (paragraph "insight-item") allInsights
    end /\
  map textContent (map (paragraph "risk-item") allRisks) = allRisks /\
  map textContent (map (paragraph "insight-item") allInsights) = allInsights.
Proof.
  intros final allRisks allInsights. subst final. unfold exec.
  destruct (updateUI_decoded r w)
    as (w5 & -> & _ & _ & _ & _ & Hrisks & Hinsights & _).
  rewrite updateChart_decoded. cbn [snd document].
  rewrite Hrisks, Hinsights. fold allRisks allInsights.
  repeat split.
  - destruct allRisks; [reflexivity |]. apply childNodes_fold_with_child.
  - destruct allInsights; [reflexivity |]. apply childNodes_fold_with_child.
  - rewrite map_map. apply map_id.
  - rewrite map_map. apply map_id.
Qed.

(** C5 (as amended): when the scenario's final net worth is at least
    the base's, and the two are not the same infinity, the impact is
    shown as [+] followed by the formatted absolute difference, in the
    good colour; when it is less, as [-] followed by the formatted
    absolute difference, in the bad colour. The sign shown is the one of
    the computed difference: [+] when the difference is at least zero,
    [-] otherwise, as for the difference of two equal infinities, which
    is not a number. *)
Theorem impact_sign_and_magnitude (r : ProjectionResult) (w : World) :
  let scenario_worth := net_worth (scenario_run r) in
  let base_worth := net_worth (base_run r) in
  let scenarioImpact := (scenario_worth - base_worth)%float in
  let shown := document (exec (updateUI (decoded r)) w) "scenarioImpact" in
  ((base_worth <=? scenario_worth)%float = true ->
   same_infinity scenario_worth base_worth = false ->
     textContent shown = "+" ++ formatter_format (abs scenarioImpact) /\
     style_color shown = "#10b981") /\
  ((scenario_worth <? base_worth)%float = true ->
     textContent shown = "-" ++ formatter_format (abs scenarioImpact) /\
     style_color shown = "#ef4444") /\
  ((0 <=? scenarioImpact)%float = true ->
     textContent shown = "+" ++ formatter_format (abs scenarioImpact) /\
     style_color shown = "#10b981") /\
  ((0 <=? scenarioImpact)%float = false ->
     textContent shown = "-" ++ formatter_format (abs scenarioImpact) /\
     style_color shown = "#ef4444").
Proof.
  intros scenario_worth base_worth scenarioImpact shown.
  assert (Hshown :
    textContent shown
    = (if (0 <=? scenarioImpact)%float then "+" else "-")
      ++ formatter_format (abs scenarioImpact) /\
    style_color shown
    = if (0 <=? scenarioImpact)%float then "#10b981" else "#ef4444").
  { subst shown. unfold exec.
    destruct (updateUI_decoded r w) as (w5 & -> & _ & _ & _ & Himpact & _).
    rewrite updateChart_decoded. cbn [snd document]. rewrite Himpact.
    split; reflexivity. }
  destruct (difference_sign scenario_worth base_worth) as [Hle Hlt].
  fold scenarioImpact in Hle, Hlt. destruct Hshown as [Htext Hcolour].
  rewrite Htext, Hcolour.
  split; [| split; [| split]].
  - intros Hge Hfinite. rewrite (Hle Hge Hfinite). split; reflexivity.
  - intros Hless. rewrite (Hlt Hless). split; reflexivity.
  - intros ->. split; reflexivity.
  - intros ->. split; reflexivity.
Qed.

(** C6 (as amended): when the goal month of the base run is [null] the
    goal-time element shows the fixed text [Not achieved]; when it is a
    number, it shows that number followed by [ months]. *)
Theorem goal_time_null_or_months (r : ProjectionResult) (w : World) :
  textContent (document (exec (updateUI (decoded r)) w) "goalTime")
  = match base_goal r with
    | None => "Not achieved"
    | Some month => Number_toString month ++ " months"
    end.
Proof.
  unfold exec.
  destruct (updateUI_decoded r w) as (w5 & -> & _ & _ & Hgoal & _).
  rewrite updateChart_decoded. cbn [snd document]. rewrite Hgoal.
  destruct (base_goal r); reflexivity.
Qed.

(** C7 (as amended): the script validates nothing. For every submission,
    whatever the fields hold, the request object is built without error
    and sent as the one request of the run. The five amounts and the
    savings rate carry what [parseFloat] made of their inputs, also when
    that is [NaN] or an infinity; the growth and the inflation rate carry
    what [parseFloat] made of their inputs divided by 100 and then by 12,
    which is [NaN] when the input did not parse; the two selections are
    passed as they are. *)
Theorem every_submission_is_sent (w : World) (o : FetchOutcome) :
  let input id := value (document w id) in
  fst (prepare w) = Normal ("submitBtn", submitted w) /\
  (forall key id, In (key, id) passed_through ->
     property key (submitted w)
     = Some (JsNumber (parseFloat (value (document w id))))) /\
  events (in_flight w)
  = (events w ++
     [ fetch "/simulate"
         {| method := "POST";
            headers := [("Content-Type", "application/json")];
            body := JSON_stringify (submitted w) |} ])%list /\
  requests (events (exec (runFullSimulation o) w))
  = (requests (events w) ++ [simulate_request (submitted w)])%list /\
  keys (submitted w) =
    ["monthly_income"; "monthly_expenses"; "current_savings";
     "current_investments"; "goal_cost"; "investment_growth_rate";
     "inflation_rate"; "monthly_savings_rate"; "risk_tolerance"; "scenario"] /\
  passed_through =
    [ ("monthly_income", "monthlyIncome");
      ("monthly_expenses", "monthlyExpenses");
      ("current_savings", "currentSavings");
      ("current_investments", "currentInvestments");
      ("goal_cost", "goalCost");
      ("monthly_savings_rate", "savingsRate") ] /\
  property "investment_growth_rate" (submitted w)
    = Some (JsNumber ((parseFloat (input "investmentGrowth") / 100) / 12)%float) /\
  property "inflation_rate" (submitted w)
    = Some (JsNumber ((parseFloat (input "inflationRate") / 100) / 12)%float) /\
  (parseFloat (input "investmentGrowth") = nan ->
     property "investment_growth_rate" (submitted w) = Some (JsNumber nan)) /\
  (parseFloat (input "inflationRate") = nan ->
     property "inflation_rate" (submitted w) = Some (JsNumber nan)) /\
  property "risk_tolerance" (submitted w) = Some (JsString (input "riskTolerance")) /\
  property "scenario" (submitted w) = Some (JsString (input "scenario")).
Proof.
  intro input.
  split; [reflexivity |]. split; [| split; [| split]].
  - intros key id Hin. simpl in Hin.
    repeat (destruct Hin as [Heq | Hin]; [inversion Heq; subst; reflexivity |]).
    contradiction.
  - reflexivity.
  - apply runFullSimulation_requests.
  - split; [reflexivity |]. split; [reflexivity |].
    split; [reflexivity |]. split; [reflexivity |].
    split; [| split; [| split; reflexivity]].
    + intro Hnan. unfold submitted. cbv zeta. fold (input "investmentGrowth").
      rewrite Hnan. reflexivity.
    + intro Hnan. unfold submitted. cbv zeta. fold (input "inflationRate").
      rewrite Hnan. reflexivity.
Qed.


(** C9: after any number of renders on a freshly loaded page exactly
    one chart is alive, the one [projectionChart] refers to, and it shows
    the result rendered last; a render destroys the chart of the render
    before it and only then constructs its own; rendering the same result
    once more leaves one chart again, with the same series. *)
Theorem one_live_chart (doc : Document) (rs : list ProjectionResult)
    (r : ProjectionResult) :
  let before := exec (renders rs) (page_load doc) in
  let once := exec (renders (rs ++ [r])) (page_load doc) in
  let twice := exec (renders (rs ++ [r; r])) (page_load doc) in
  Chart_instances once = [(Chart_count before, rendered_config r)] /\
  projectionChart once = Some (Chart_count before) /\
  events once
  = (match projectionChart before with
     | Some previous => events before ++ [Chart_destroy previous]
     | None => events before
     end ++ [Chart_new (Chart_count before) "projectionChart"])%list /\
  Chart_instances twice = [(Chart_count once, rendered_config r)] /\
  projectionChart twice = Some (Chart_count once) /\
  events twice
  = (events once ++
     [Chart_destroy (Chart_count before);
      Chart_new (Chart_count once) "projectionChart"])%list /\
  visible_series (rendered_config r)
  = [Present (series (base_run r)); Present (series (best_run r));
     Present (series (worst_run r)); Present (series (scenario_run r))].
Proof.
  intros before once twice.
  assert (Hbefore : chart_singleton before).
  { apply renders_singleton, page_load_singleton. }
  assert (Honce : once = exec (updateUI (decoded r)) before).
  { unfold once, before, exec. rewrite renders_app, render_last. reflexivity. }
  assert (Htwice : twice = exec (updateUI (decoded r)) once).
  { unfold twice. change [r; r] with ([r] ++ [r])%list. rewrite app_assoc.
    unfold exec. rewrite renders_app, render_last. reflexivity. }
  assert (Hsingle : chart_singleton once).
  { rewrite Honce. apply updateUI_decoded_keeps_singleton, Hbefore. }
  destruct (updateUI_decoded_charts r before) as (_ & Hpc1 & _ & _ & Hev1).
  destruct (updateUI_decoded_charts r once) as (_ & Hpc2 & _ & _ & Hev2).
  fold (exec (updateUI (decoded r)) before) in Hpc1, Hev1.
  fold (exec (updateUI (decoded r)) once) in Hpc2, Hev2.
  rewrite <- Honce in Hpc1, Hev1. rewrite <- Htwice in Hpc2, Hev2.
  repeat split.
  - rewrite Honce. apply updateUI_decoded_singleton, Hbefore.
  - exact Hpc1.
  - exact Hev1.
  - rewrite Htwice. apply updateUI_decoded_singleton, Hsingle.
  - exact Hpc2.
  - rewrite Hev2, Hpc1, <- app_assoc. reflexivity.
Qed.

(** C10: the chart [updateChart] constructs has the months 1 to 120 as
    its axis, whatever the lengths of the histories, and exactly four
    datasets, in the order base, best, worst, scenario, each with its
    fixed label and colours and with the history of its run as data. *)
Theorem chart_has_fixed_axis_and_series (r : ProjectionResult) (w : World) :
  let final := exec (updateChart (decoded r)) w in
  exists others cfg,
    Chart_instances final = (others ++ [(Chart_count w, cfg)])%list /\
    projectionChart final = Some (Chart_count w) /\
    type cfg = "line" /\
    labels (config_data cfg) = map Z.of_nat (seq 1 120) /\
    map label (datasets (config_data cfg))
    = ["Base Case"; "Best Case"; "Worst Case"; "What-If Scenario"] /\
    map borderColor (datasets (config_data cfg))
    = ["#007bff"; "#10b981"; "#ef4444"; "#f59e0b"] /\
    map backgroundColor (datasets (config_data cfg))
    = ["rgba(0, 123, 255, 0.1)"; "rgba(16, 185, 129, 0.1)";
       "rgba(239, 68, 68, 0.1)"; "rgba(245, 158, 11, 0.1)"] /\
    visible_series cfg
    = [Present (series (base_run r)); Present (series (best_run r));
       Present (series (worst_run r)); Present (series (scenario_run r))].
Proof.
  intro final. subst final. unfold exec. rewrite updateChart_decoded.
  eexists. exists (rendered_config r). cbn [snd Chart_instances projectionChart].
  split; [reflexivity |]. repeat split.
Qed.

End Properties.

(** * The properties on sample inputs, with the runtime of the standard *)

Section Samples.

#[local] Existing Instance ECMAScript.runtime.

(** The end-to-end scenario of the specification: a growth of 7 and an
    inflation of 3 percent a year leave the form as 0.07/12 and 0.03/12. *)
Example payload_of_sample_page :
  property "investment_growth_rate" (submitted (page_load Sample.page))
  = Some (JsNumber (0.07 / 12)%float) /\
  property "inflation_rate" (submitted (page_load Sample.page))
  = Some (JsNumber 0.0025%float) /\
  property "monthly_savings_rate" (submitted (page_load Sample.page))
  = Some (JsNumber 0.3%float) /\
  property "monthly_income" (submitted (page_load Sample.page))
  = Some (JsNumber 5000%float) /\
  property "scenario" (submitted (page_load Sample.page))
  = Some (JsString "job_loss").
Proof. vm_compute. repeat split. Qed.

(** A status of 500 is a failure: the run on the sample page. *)
Lemma failure_is_notified_once_witness :
  is_failure (Response 500 (Parsed (decoded Sample.result))) = true /\
  exists error,
    error = Error ("HTTP error! status: " ++ Number_toString (Number_of_Z 500)) /\
    events (exec (runFullSimulation (Response 500 (Parsed (decoded Sample.result))))
                 (page_load Sample.page))
    = [ fetch "/simulate"
          {| method := "POST";
             headers := [("Content-Type", "application/json")];
             body := JSON_stringify (submitted (page_load Sample.page)) |};
        console_error "Simulation error:" error;
        failure_alert ].
Proof.
  split; [reflexivity |].
  destruct (failure_is_notified_once (page_load Sample.page)
              (Response 500 (Parsed (decoded Sample.result))) eq_refl)
    as (error & Hcause & _ & Hevents & _).
  exists error. split; [exact Hcause | exact Hevents].
Defined.


(** The control of the sample page carries no label; after a run it
    carries the idle label, as after every run. *)
Example control_of_sample_page :
  let final :=
    exec (runFullSimulation (Response 200 (Parsed (decoded Sample.result))))
         (page_load Sample.page) in
  innerHTML (document (page_load Sample.page) "submitBtn") = "" /\
  innerHTML (document final "submitBtn") = idle_label /\
  disabled (document final "submitBtn") = false.
Proof. vm_compute. repeat split. Qed.

(** What a status of 500 leaves behind. *)
Example status_500_is_logged :
  events (exec (runFullSimulation (Response 500 (Parsed (decoded Sample.result))))
               (page_load Sample.page))
  = [ fetch "/simulate"
        {| method := "POST";
           headers := [("Content-Type", "application/json")];
           body := JSON_stringify (submitted (page_load Sample.page)) |};
      console_error "Simulation error:" (Error "HTTP error! status: 500");
      failure_alert ].
Proof. vm_compute. reflexivity. Qed.


(** C5, counterexample: both net worths are [Infinity], so the scenario
    is at least the base, yet their difference is not a number and the
    impact is shown with [-] and in the bad colour. *)
Lemma equal_infinities_shown_negative :
  let r := Sample.unbounded in
  let shown :=
    document (exec (updateUI (decoded r)) (page_load Sample.page)) "scenarioImpact" in
  (net_worth (base_run r) <=? net_worth (scenario_run r))%float = true /\
  (net_worth (scenario_run r) <? net_worth (base_run r))%float = false /\
  textContent shown = "-$NaN" /\
  style_color shown = "#ef4444".
Proof. vm_compute. repeat split. Qed.

(** C6, counterexample: a base run without [goal_1_month] is shown a
    number of months that is no number, not the sentinel. *)
Lemma absent_goal_shown_as_months :
  goal_1_month (decoded_run (base_run Sample.result) Absent) = Absent /\
  base Sample.without_goal
  = Present (decoded_run (base_run Sample.result) Absent) /\
  textContent
    (document (exec (updateUI Sample.without_goal) (page_load Sample.page)) "goalTime")
  = "undefined months".
Proof. vm_compute. repeat split. Qed.

(** C7, counterexample: with the income field empty the income does not
    parse as a number, and the request is built and sent all the same,
    with [NaN] as income. *)
Lemma unparsed_income_is_sent :
  let w := page_load Sample.page_without_income in
  parseFloat (value (document w "monthlyIncome")) = nan /\
  fst (prepare w) = Normal ("submitBtn", submitted w) /\
  property "monthly_income" (submitted w) = Some (JsNumber nan) /\
  requests (events (in_flight w)) = [simulate_request (submitted w)] /\
  requests (events (exec (runFullSimulation (Response 200 (Parsed (decoded Sample.result)))) w))
  = [simulate_request (submitted w)].
Proof. vm_compute. repeat split. Qed.


(** A response with [null] for its worst run: the summary and the two
    lists are rendered, the chart is not, and the failure is notified. *)
Example missing_worst_leaves_summary_rendered :
  let final :=
    exec (runFullSimulation (Response 200 (Parsed Cases.without_worst)))
         (page_load Sample.page) in
  has_all_runs Cases.without_worst = false /\
  textContent (document final "baseNetWorth") = "$1,000" /\
  textContent (document final "goalTime") = "37 months" /\
  textContent (document final "scenarioImpact") = "-$100" /\
  map textContent (childNodes (document final "riskAlerts"))
  = ["Low emergency fund"; "Income gap"; "Low emergency fund"] /\
  map textContent (childNodes (document final "keyInsights"))
  = ["Run simulation to see insights"] /\
  Chart_instances final = [] /\
  In failure_alert (events final).
Proof. vm_compute. repeat split; auto. Qed.

(** A render of the sample result, in full. *)
Example sample_result_rendered :
  let w := exec (updateUI (decoded Sample.result)) (page_load Sample.page) in
  textContent (document w "baseNetWorth") = "$1,000" /\
  textContent (document w "goalTime") = "37 months" /\
  textContent (document w "scenarioImpact") = "-$100" /\
  style_color (document w "scenarioImpact") = "#ef4444" /\
  map textContent (childNodes (document w "riskAlerts"))
  = ["Low emergency fund"; "Income gap"; "Low emergency fund"] /\
  map textContent (childNodes (document w "keyInsights"))
  = ["Run simulation to see insights"] /\
  map fst (Chart_instances w) = [0] /\
  projectionChart w = Some 0.
Proof. vm_compute. repeat split. Qed.

End Samples.

(** * The further properties on sample inputs *)

Section FurtherSamples.

#[local] Existing Instance ECMAScript.runtime.

(** A failed submission and its corrected repeat: two requests, the
    second with the corrected income, one notification, one chart. *)
Example session_of_a_retry :
  let final := exec (session Cases.retry) (page_load Sample.page) in
  map (fun request => body (snd request)) (requests (events final))
  = [ JSON_stringify (submitted (page_load Sample.page));
      JSON_stringify
        (submitted (exec (type_in ("monthlyIncome", "6000")) (page_load Sample.page))) ] /\
  property "monthly_income"
    (submitted (exec (type_in ("monthlyIncome", "6000")) (page_load Sample.page)))
  = Some (JsNumber 6000%float) /\
  logged (events final) = [TypeError "Failed to fetch"] /\
  map fst (Chart_instances final) = [0] /\
  projectionChart final = Some 0 /\
  textContent (document final "baseNetWorth") = "$1,000".
Proof. vm_compute. repeat split. Qed.


(** The same response in full: what was written before the failure
    stays, the rest is not reached. *)
Example absent_risks_on_sample_page :
  let final :=
    exec (runFullSimulation (Response 200 (Parsed Cases.without_risks)))
         (page_load Cases.rendered_page) in
  textContent (document final "baseNetWorth") = "$1,000" /\
  textContent (document final "goalTime") = "37 months" /\
  textContent (document final "scenarioImpact") = "-$100" /\
  childNodes (document final "riskAlerts") = [] /\
  childNodes (document final "keyInsights") = [] /\
  Chart_instances final = [] /\
  exists message, logged (events final) = [TypeError message].
Proof. vm_compute. repeat split. eexists. reflexivity. Qed.


(** A status of 200 with the sample result, on the sample page. *)
Lemma successful_run_is_silent_witness :
  ok 200 = true /\
  logged
    (events
       (exec (runFullSimulation (Response 200 (Parsed (decoded Sample.result))))
             (page_load Sample.page)))
  = [].
Proof.
  split; [reflexivity |].
  destruct (successful_run_is_silent (page_load Sample.page) 200 Sample.result eq_refl)
    as (_ & Hlogged & _).
  exact Hlogged.
Defined.

(** A response whose best run has no [history]: the chart is
    constructed, its second dataset without data. *)
Lemma chart_takes_histories_as_they_are_witness :
  base Cases.without_history = Present Cases.base_run_decoded /\
  best Cases.without_history = Present Cases.run_without_history /\
  worst Cases.without_history = Present Cases.worst_run_decoded /\
  scenario Cases.without_history = Present Cases.scenario_run_decoded /\
  history Cases.run_without_history = Absent /\
  fst (updateChart Cases.without_history (page_load Sample.page)) = Normal tt.
Proof.
  repeat (split; [reflexivity |]).
  destruct (chart_takes_histories_as_they_are Cases.without_history
              (page_load Sample.page) Cases.base_run_decoded
              Cases.run_without_history Cases.worst_run_decoded
              Cases.scenario_run_decoded eq_refl eq_refl eq_refl eq_refl)
    as (Hc & _).
  exact Hc.
Defined.

Example chart_without_a_history :
  map (fun c => visible_series (snd c))
    (Chart_instances (exec (updateUI Cases.without_history) (page_load Sample.page)))
  = [[Present [1000; 1000]%float; Absent; Present [500; 500]%float;
      Present [900; 900]%float]].
Proof. vm_compute. reflexivity. Qed.

(** A response whose base run has no [final_net_worth]. *)
Lemma missing_net_worth_is_shown_as_loss_witness :
  base Sample.without_net_worth = Present Cases.run_without_net_worth /\
  scenario Sample.without_net_worth = Present Cases.scenario_run_decoded /\
  final_net_worth Cases.run_without_net_worth = Absent /\
  textContent
    (document (exec (updateUI Sample.without_net_worth) (page_load Sample.page))
       "scenarioImpact")
  = "-$NaN".
Proof.
  repeat (split; [reflexivity |]).
  destruct (missing_net_worth_is_shown_as_loss Sample.without_net_worth
              (page_load Sample.page) Cases.run_without_net_worth
              Cases.scenario_run_decoded eq_refl eq_refl (or_introl eq_refl))
    as (Htext & _).
  exact Htext.
Defined.

(** With the formatter of the standard the impact starts with the sign
    the script chose and the currency symbol, whatever the result. *)
Lemma format_unsigned (x : float) :
  sign_of x <> Some true ->
  exists rest, formatter_format x = String "$" rest.
Proof.
  unfold sign_of, formatter_format. cbn [NumberFormat_format ECMAScript.runtime].
  unfold ECMAScript.NumberFormat_format.
  destruct (Prim2SF x) as [[] | [] | | [] m e]; cbn [SF_sign]; intro Hsign;
    try congruence; eexists; reflexivity.
Qed.

Example impact_starts_with_its_sign (r : ProjectionResult) (w : World) :
  exists rest,
    textContent (document (exec (updateUI (decoded r)) w) "scenarioImpact")
    = String "+" (String "$" rest) \/
    textContent (document (exec (updateUI (decoded r)) w) "scenarioImpact")
    = String "-" (String "$" rest).
Proof.
  rewrite updateUI_document. unfold rendered. cbn [String.eqb Ascii.eqb Bool.eqb].
  cbv zeta. cbn [textContent with_textContent].
  destruct (format_unsigned _ (abs_sign (net_worth (scenario_run r) - net_worth (base_run r))))
    as [rest ->].
  exists rest. destruct (0 <=? _)%float; [left | right]; reflexivity.
Qed.

(** A yearly growth of [-7] percent and a field that does not parse. *)
Example rates_of_odd_inputs :
  sign_of ((ECMAScript.parseFloat "-7" / 100) / 12) = Some true /\
  sign_of ((ECMAScript.parseFloat "-0" / 100) / 12) = Some true /\
  sign_of ((ECMAScript.parseFloat "seven" / 100) / 12) = None /\
  ((ECMAScript.parseFloat "Infinity" / 100) / 12)%float = infinity.
Proof. vm_compute. repeat split. Qed.

End FurtherSamples.
